(** * EcoImmo France: regulatory recalculation engine and open-data fetcher

    A shallow embedding of
    - [apps/api/app/services/dpe_2026_calculator.py] (module [Calculator]),
    - the request model of [apps/api/app/routers/properties.py]
      (module [Router]),
    - [apps/api/app/services/french_gov_data_fetcher.py] (module [Fetcher]),
    - the handlers [search_properties] and [passoire_thermique_map] of
      [apps/api/app/routers/properties.py] (module [Endpoints]),
    - the recalculation, valuation and risk steps of
      [apps/api/app/services/ai_property_doctor.py] and the preparation of
      [dpe_data] in [apps/api/app/routers/ai_property_doctor.py]
      (module [Doctor]),
    followed by the properties established about them.

    Numbers.  Python [float]s are modelled by exact rationals [Q] and Python
    [int]s by [Z].  Every finite double is a rational and Python compares an
    [int] with a [float] exactly, so comparisons against the integer
    thresholds are those of the code; sums and products are the exact ones
    (no rounding), and NaN and the infinities are outside the model.

    Dictionaries.  The dictionaries of the calculator are iterated in
    insertion order, so they are association lists; the JSON objects handled
    by the fetcher are only looked up and popped, so they are [gmap]s. *)

From stdpp Require Import base option list strings gmap fin_maps sorting.
From Stdlib Require Import ZArith QArith Qround Lia Lqa.
From Stdlib Require Import Ascii DecimalString DecimalZ.
From Stdlib Require Import Floats.SpecFloat.

#[local] Open Scope Z_scope.

(** ** Python values shared by both services *)

(** Exceptions that can leave one of the modelled functions. *)
Inductive exn :=
| ValueError
| TypeError
| AttributeError
| IndexError
| RuntimeError
| ValidationError
| OtherError.

(** Outcome of a call that may raise. *)
Inductive result (A : Type) :=
| Ok (a : A)
| Raise (e : exn).
Arguments Ok {A} a.
Arguments Raise {A} e.

(** A naive [datetime]: calendar date and microseconds since midnight. *)
Record datetime := mk_datetime {
  dt_year : Z;
  dt_month : Z;
  dt_day : Z;
  dt_micro : Z
}.

(** [datetime(y, m, d)] *)
Definition datetime_ymd (y m d : Z) : datetime := mk_datetime y m d 0.

(** Lexicographic order on the components: the order of [datetime.__lt__]. *)
Definition datetime_ltb (a b : datetime) : bool :=
  if Z.eqb (dt_year a) (dt_year b) then
    if Z.eqb (dt_month a) (dt_month b) then
      if Z.eqb (dt_day a) (dt_day b) then Z.ltb (dt_micro a) (dt_micro b)
      else Z.ltb (dt_day a) (dt_day b)
    else Z.ltb (dt_month a) (dt_month b)
  else Z.ltb (dt_year a) (dt_year b).

Definition datetime_leb (a b : datetime) : bool := negb (datetime_ltb b a).

(** [int(x)] on a float: truncation toward zero. *)
Definition py_int (x : Q) : Z := Z.quot (Qnum x) (Z.pos (Qden x)).

(** [round(x, ndigits)] for [ndigits >= 0]: the nearest multiple of
    [10^-ndigits], ties to the even one. *)
Definition round_half_even (x : Q) : Z :=
  let n := Qfloor x in
  match Qcompare (x - inject_Z n) (1 # 2) with
  | Lt => n
  | Gt => n + 1
  | Eq => if Z.even n then n else n + 1
  end.

Definition py_round (x : Q) (ndigits : nat) : Q :=
  let scale := inject_Z (10 ^ Z.of_nat ndigits) in
  (inject_Z (round_half_even (x * scale)) / scale)%Q.

(** [x] is truthy as a Python float. *)
Definition Q_truthy (x : Q) : bool := negb (Z.eqb (Qnum x) 0).

(** ** The regulatory recalculation engine *)

Module Calculator.

Inductive DPEClassification := A | B | C | D | E | F | G.

Definition DPEClassification_eqb (x y : DPEClassification) : bool :=
  match x, y with
  | A, A | B, B | C, C | D, D | E, E | F, F | G, G => true
  | _, _ => false
  end.

(** [DPEClassification(s)]: lookup of an enum member by value. *)
Definition DPEClassification_of_string (s : string) : result DPEClassification :=
  if String.eqb s "A" then Ok A
  else if String.eqb s "B" then Ok B
  else if String.eqb s "C" then Ok C
  else if String.eqb s "D" then Ok D
  else if String.eqb s "E" then Ok E
  else if String.eqb s "F" then Ok F
  else if String.eqb s "G" then Ok G
  else Raise ValueError.

(** Position on the A-G scale (0 is best). *)
Definition rank (c : DPEClassification) : Z :=
  match c with
  | A => 0 | B => 1 | C => 2 | D => 3 | E => 4 | F => 5 | G => 6
  end.

Inductive RenovationUrgency := COMPLIANT | WARNING | URGENT | CRITICAL.

Record EnergyConsumption := mkEnergyConsumption {
  heating_kwh : Q;
  hot_water_kwh : Q;
  cooling_kwh : Q;
  lighting_kwh : Q;
  auxiliary_kwh : Q
}.

Definition total_final_energy (c : EnergyConsumption) : Q :=
  (heating_kwh c + hot_water_kwh c + cooling_kwh c + lighting_kwh c
   + auxiliary_kwh c)%Q.

(** [calculation_metadata] of a result. *)
Record Metadata := mkMetadata {
  calculation_date : datetime;
  electricity_factor_used : Q;
  regulatory_framework : string;
  methodology : string;
  data_sources : list string;
  confidence_level : string
}.

Record DPE2026Result := mkDPE2026Result {
  original_classification : DPEClassification;
  original_primary_energy : Q;
  recalculated_primary_energy : Q;
  recalculated_classification : DPEClassification;
  is_passoire_thermique : bool;
  renovation_urgency : RenovationUrgency;
  rental_ban_date : option datetime;
  estimated_energy_cost_annual : Q;
  potential_value_loss_percent : Q;
  calculation_metadata : Metadata;
  ai_transparency_badge : bool;
  human_verification_required : bool;
  priority_renovations : list string;
  estimated_renovation_cost_range : Z * Z
}.

(** *** Regulatory constants *)

Definition ELECTRICITY_FACTOR_2026 : Q := 19 # 10.
Definition ELECTRICITY_FACTOR_PRE_2026 : Q := 23 # 10.
Definition GAS_FACTOR : Q := 1.
Definition FUEL_OIL_FACTOR : Q := 1.
Definition WOOD_FACTOR : Q := 6 # 10.

(** Upper bound of a threshold interval: a number or [float('inf')]. *)
Inductive bound := Fin (q : Q) | Inf.

Definition le_bound (v : Q) (b : bound) : bool :=
  match b with
  | Fin q => Qle_bool v q
  | Inf => true
  end.

(** The dictionary [DPE_THRESHOLDS], in insertion order. *)
Definition DPE_THRESHOLDS : list (DPEClassification * (Q * bound)) :=
  [ (A, (0, Fin 70));
    (B, (71, Fin 110));
    (C, (111, Fin 180));
    (D, (181, Fin 250));
    (E, (251, Fin 330));
    (F, (331, Fin 420));
    (G, (421, Inf)) ]%Q.

Definition RENTAL_BAN_DATES : list (DPEClassification * datetime) :=
  [ (G, datetime_ymd 2025 1 1);
    (F, datetime_ymd 2028 1 1);
    (E, datetime_ymd 2034 1 1) ].

Definition ENERGY_COSTS : list (string * Q) :=
  [ ("electricity", 2516 # 10000);
    ("gas", 1121 # 10000);
    ("fuel_oil", 1450 # 10000);
    ("wood", 650 # 10000) ]%Q.

(** Lookup in a dictionary keyed by class. *)
Fixpoint class_get {V : Type} (d : list (DPEClassification * V))
    (c : DPEClassification) : option V :=
  match d with
  | [] => None
  | (k, v) :: d' => if DPEClassification_eqb k c then Some v else class_get d' c
  end.

(** Lookup in a dictionary keyed by string. *)
Fixpoint str_get {V : Type} (d : list (string * V)) (k : string) : option V :=
  match d with
  | [] => None
  | (k', v) :: d' => if String.eqb k' k then Some v else str_get d' k
  end.

(** [d[k] = v]: overwrite in place, or append a new entry. *)
Fixpoint str_set {V : Type} (d : list (string * V)) (k : string) (v : V)
    : list (string * V) :=
  match d with
  | [] => [(k, v)]
  | (k', v') :: d' =>
      if String.eqb k' k then (k', v) :: d' else (k', v') :: str_set d' k v
  end.

(** *** classify_energy_performance *)

(** The [for] loop over [DPE_THRESHOLDS.items()], with the fallback after it. *)
Fixpoint classify_in (table : list (DPEClassification * (Q * bound)))
    (primary_energy_kwh : Q) : DPEClassification :=
  match table with
  | [] => G
  | (classification, (min_val, max_val)) :: rest =>
      if Qle_bool min_val primary_energy_kwh
         && le_bound primary_energy_kwh max_val
      then classification
      else classify_in rest primary_energy_kwh
  end.

Definition classify_energy_performance (primary_energy_kwh : Q)
    : DPEClassification :=
  classify_in DPE_THRESHOLDS primary_energy_kwh.

(** *** recalculate_with_2026_factor *)

(** One iteration of the loop over [other_energy_sources.items()]. *)
Definition add_source (weighted_factor : Q) (item : string * Q) : Q :=
  let '(source, percentage) := item in
  if String.eqb source "gas" then (weighted_factor + percentage * GAS_FACTOR)%Q
  else if String.eqb source "fuel_oil"
       then (weighted_factor + percentage * FUEL_OIL_FACTOR)%Q
  else if String.eqb source "wood"
       then (weighted_factor + percentage * WOOD_FACTOR)%Q
  else weighted_factor.

Definition weighted_conversion_factor (electricity_percentage : Q)
    (other_energy_sources : list (string * Q)) : Q :=
  fold_left add_source other_energy_sources
    (0 + electricity_percentage * ELECTRICITY_FACTOR_2026)%Q.

Definition recalculate_with_2026_factor
    (final_energy_consumption : EnergyConsumption)
    (electricity_percentage : Q)
    (other_energy_sources : list (string * Q)) : Q :=
  let total_final := total_final_energy final_energy_consumption in
  let weighted_factor :=
    weighted_conversion_factor electricity_percentage other_energy_sources in
  (total_final * weighted_factor)%Q.

(** *** calculate_renovation_urgency *)

Definition calculate_renovation_urgency (classification : DPEClassification)
    (is_rental_property : bool) : RenovationUrgency :=
  if negb is_rental_property then COMPLIANT
  else match classification with
       | G => CRITICAL
       | F => URGENT
       | E => WARNING
       | _ => COMPLIANT
       end.

(** *** estimate_energy_costs *)

Definition estimate_energy_costs (final_energy_kwh surface_m2 : Q)
    (energy_mix : list (string * Q)) : Q :=
  let total_consumption := (final_energy_kwh * surface_m2)%Q in
  let total_cost :=
    fold_left
      (fun total_cost '(source, percentage) =>
         let source_consumption := (total_consumption * percentage)%Q in
         let cost_per_kwh := default (15 # 100)%Q (str_get ENERGY_COSTS source) in
         (total_cost + source_consumption * cost_per_kwh)%Q)
      energy_mix 0%Q in
  py_round total_cost 2.

(** *** calculate_value_depreciation *)

Definition base_depreciation : list (DPEClassification * Q) :=
  [ (A, 0); (B, 0); (C, 0); (D, 0); (E, 65 # 10); (F, 12); (G, 16) ]%Q.

Definition calculate_value_depreciation (classification : DPEClassification)
    (is_rental_property : bool) : Q :=
  let depreciation := default 0%Q (class_get base_depreciation classification) in
  let depreciation :=
    if is_rental_property
       && (DPEClassification_eqb classification F
           || DPEClassification_eqb classification G)
    then (depreciation * (125 # 100))%Q
    else depreciation in
  py_round depreciation 1.

(** *** generate_renovation_priorities *)

Definition generate_renovation_priorities (classification : DPEClassification)
    (consumption : EnergyConsumption) : list string :=
  let priorities := [] in
  let priorities :=
    if Qlt_le_dec 150 (heating_kwh consumption)
    then (priorities
          ++ ["Isolation thermique (combles, murs, planchers)";
              "Remplacement du système de chauffage (pompe à chaleur)"])%list
    else priorities in
  let priorities :=
    if Qlt_le_dec 50 (hot_water_kwh consumption)
    then (priorities ++ ["Chauffe-eau thermodynamique ou solaire"])%list
    else priorities in
  let priorities :=
    if DPEClassification_eqb classification F
       || DPEClassification_eqb classification G
    then (priorities
          ++ ["Remplacement des fenêtres (double/triple vitrage)";
              "Installation d'une VMC double flux"])%list
    else priorities in
  let priorities :=
    (priorities
     ++ ["Panneaux solaires photovoltaïques (autoconsommation)"])%list in
  take 5 priorities.

(** *** estimate_renovation_costs *)

Definition cost_per_m2 : list (DPEClassification * (Q * Q)) :=
  [ (E, (150, 250)); (F, (300, 500)); (G, (500, 800)) ]%Q.

Definition estimate_renovation_costs (classification : DPEClassification)
    (surface_m2 : Q) : Z * Z :=
  match class_get cost_per_m2 classification with
  | None => (0, 0)
  | Some (min_rate, max_rate) =>
      (py_int (min_rate * surface_m2), py_int (max_rate * surface_m2))
  end.

(** *** calculate_full_dpe_2026 *)

Section Engine.

(** [self.enable_ai_transparency] and the reading of [datetime.now()]. *)
Variable enable_ai_transparency : bool.
Variable now : datetime.

Definition calculate_full_dpe_2026
    (original_dpe_class : string)
    (original_primary_energy : Q)
    (final_energy_consumption : EnergyConsumption)
    (electricity_percentage : Q)
    (other_energy_sources : list (string * Q))
    (surface_m2 : Q)
    (is_rental_property : bool) : result DPE2026Result :=
  (* Step 1 *)
  let recalculated_primary :=
    recalculate_with_2026_factor final_energy_consumption
      electricity_percentage other_energy_sources in
  (* Step 2 *)
  match DPEClassification_of_string original_dpe_class with
  | Raise e => Raise e
  | Ok original_class =>
      let recalculated_class := classify_energy_performance recalculated_primary in
      (* Step 3 *)
      let is_passoire :=
        DPEClassification_eqb recalculated_class F
        || DPEClassification_eqb recalculated_class G in
      (* Step 4 *)
      let urgency :=
        calculate_renovation_urgency recalculated_class is_rental_property in
      (* Step 5 *)
      let rental_ban :=
        if is_rental_property then class_get RENTAL_BAN_DATES recalculated_class
        else None in
      (* Step 6 *)
      let energy_mix :=
        fold_left (fun d '(k, v) => str_set d k v) other_energy_sources
          [("electricity", electricity_percentage)] in
      let annual_cost :=
        estimate_energy_costs (total_final_energy final_energy_consumption)
          surface_m2 energy_mix in
      let value_loss :=
        calculate_value_depreciation recalculated_class is_rental_property in
      (* Step 7 *)
      let priorities :=
        generate_renovation_priorities recalculated_class
          final_energy_consumption in
      let cost_range := estimate_renovation_costs recalculated_class surface_m2 in
      (* Step 8 *)
      let metadata :=
        {| calculation_date := now;
           electricity_factor_used := ELECTRICITY_FACTOR_2026;
           regulatory_framework := "Loi Climat et Résilience 2026 + EU EPBD 2024";
           methodology := "DPE 3CL-2021 (updated Jan 2026)";
           data_sources := ["ADEME DPE API"; "DVF Gouv"];
           confidence_level :=
             if Qlt_le_dec (8 # 10) electricity_percentage
             then "high" else "medium" |} in
      (* Step 9 *)
      let human_verification :=
        is_passoire && is_rental_property
        && match urgency with URGENT | CRITICAL => true | _ => false end in
      Ok {| original_classification := original_class;
            original_primary_energy := original_primary_energy;
            recalculated_primary_energy := recalculated_primary;
            recalculated_classification := recalculated_class;
            is_passoire_thermique := is_passoire;
            renovation_urgency := urgency;
            rental_ban_date := rental_ban;
            estimated_energy_cost_annual := annual_cost;
            potential_value_loss_percent := value_loss;
            calculation_metadata := metadata;
            ai_transparency_badge := enable_ai_transparency;
            human_verification_required := human_verification;
            priority_renovations := priorities;
            estimated_renovation_cost_range := cost_range |}
  end.

End Engine.

(** *** Notions used to state the properties *)

(** Lower and upper edge of the interval of a class. *)
Definition lower_edge (c : DPEClassification) : Q :=
  match c with
  | A => 0 | B => 71 | C => 111 | D => 181 | E => 251 | F => 331 | G => 421
  end.

Definition upper_edge (c : DPEClassification) : Q :=
  match c with
  | A => 70 | B => 110 | C => 180 | D => 250 | E => 330 | F => 420 | G => 421
  end.

(** [v] lies in one of the intervals of the table. *)
Definition covered (v : Q) : bool :=
  existsb (fun '(_, (lo, hi)) => Qle_bool lo v && le_bound v hi) DPE_THRESHOLDS.

(** The conversion constant of a source other than electricity; a source
    the loop does not know contributes nothing. *)
Definition source_factor (source : string) : Q :=
  if String.eqb source "gas" then GAS_FACTOR
  else if String.eqb source "fuel_oil" then FUEL_OIL_FACTOR
  else if String.eqb source "wood" then WOOD_FACTOR
  else 0.

(** Sum over the other sources of share times constant. *)
Definition others_sum (other_energy_sources : list (string * Q)) : Q :=
  foldr (fun '(source, percentage) acc =>
           (percentage * source_factor source + acc)%Q)
        0%Q other_energy_sources.

(** *** The recalculation in IEEE binary64 arithmetic

    The same sums and products as [recalculate_with_2026_factor], on
    doubles with round-to-nearest-even, to evaluate the code on concrete
    inputs without idealising its arithmetic. *)

Definition b64_add : spec_float → spec_float → spec_float := SFadd 53 1024.
Definition b64_mul : spec_float → spec_float → spec_float := SFmul 53 1024.

(** The positive double [m * 2^e]. *)
Definition b64 (m : positive) (e : Z) : spec_float := S754_finite false m e.

(** The doubles denoted by the literals [1.9], [1.0] and [0.6]. *)
Definition b64_1_9 : spec_float := b64 0x1e666666666666 (-52).
Definition b64_1_0 : spec_float := b64 0x10000000000000 (-52).
Definition b64_0_6 : spec_float := b64 0x13333333333333 (-53).

(** The rational a finite double stands for. *)
Definition b64_value (x : spec_float) : option Q :=
  match x with
  | S754_zero _ => Some 0%Q
  | S754_finite s m e =>
      let v := (inject_Z (Z.pos m) * Qpower 2 e)%Q in
      Some (if s then (- v)%Q else v)
  | _ => None
  end.

Definition b64_add_source (weighted_factor : spec_float)
    (item : string * spec_float) : spec_float :=
  let '(source, percentage) := item in
  if String.eqb source "gas"
  then b64_add weighted_factor (b64_mul percentage b64_1_0)
  else if String.eqb source "fuel_oil"
       then b64_add weighted_factor (b64_mul percentage b64_1_0)
  else if String.eqb source "wood"
       then b64_add weighted_factor (b64_mul percentage b64_0_6)
  else weighted_factor.

Definition b64_recalculate (heating hot_water cooling lighting auxiliary : spec_float)
    (electricity_percentage : spec_float)
    (other_energy_sources : list (string * spec_float)) : spec_float :=
  let total_final :=
    b64_add (b64_add (b64_add (b64_add heating hot_water) cooling) lighting)
      auxiliary in
  let weighted_factor :=
    fold_left b64_add_source other_energy_sources
      (b64_add (S754_zero false) (b64_mul electricity_percentage b64_1_9)) in
  b64_mul total_final weighted_factor.

End Calculator.

(** ** The request model of the recalculation endpoint *)

Module Router.

Import Calculator.

(** Body of [POST /analyze-dpe-2026]. *)
Record DPE2026AnalysisRequest := mkRequest {
  req_original_dpe_class : string;
  req_original_primary_energy : Q;
  req_heating_kwh : Q;
  req_hot_water_kwh : Q;
  req_cooling_kwh : Q;
  req_lighting_kwh : Q;
  req_auxiliary_kwh : Q;
  req_electricity_percentage : Q;
  req_gas_percentage : Q;
  req_fuel_oil_percentage : Q;
  req_wood_percentage : Q;
  req_surface_m2 : Q;
  req_is_rental_property : bool
}.

Definition gt0 (x : Q) : bool := negb (Qle_bool x 0).
Definition ge0 (x : Q) : bool := Qle_bool 0 x.
Definition share (x : Q) : bool := Qle_bool 0 x && Qle_bool x 1.

(** The [Field] constraints of the model: [pattern="^[A-G]$"], [gt=0],
    [ge=0], [ge=0, le=1]. *)
Definition request_valid (r : DPE2026AnalysisRequest) : bool :=
  match DPEClassification_of_string (req_original_dpe_class r) with
  | Ok _ => true
  | Raise _ => false
  end
  && gt0 (req_original_primary_energy r)
  && ge0 (req_heating_kwh r)
  && ge0 (req_hot_water_kwh r)
  && ge0 (req_cooling_kwh r)
  && ge0 (req_lighting_kwh r)
  && ge0 (req_auxiliary_kwh r)
  && share (req_electricity_percentage r)
  && share (req_gas_percentage r)
  && share (req_fuel_oil_percentage r)
  && share (req_wood_percentage r)
  && gt0 (req_surface_m2 r).

(** The dictionary [other_sources] built by the handler. *)
Definition other_sources (r : DPE2026AnalysisRequest) : list (string * Q) :=
  ((if gt0 (req_gas_percentage r) then [("gas", req_gas_percentage r)] else [])
   ++ (if gt0 (req_fuel_oil_percentage r)
       then [("fuel_oil", req_fuel_oil_percentage r)] else [])
   ++ (if gt0 (req_wood_percentage r)
       then [("wood", req_wood_percentage r)] else []))%list.

(** The [result] object computed by [analyze_dpe_2026]; the response body
    is a projection of its fields.  A body that violates the model never
    reaches the handler. *)
Definition analyze_dpe_2026 (now : datetime) (r : DPE2026AnalysisRequest)
    : result DPE2026Result :=
  if request_valid r then
    calculate_full_dpe_2026 true now
      (req_original_dpe_class r)
      (req_original_primary_energy r)
      (mkEnergyConsumption (req_heating_kwh r) (req_hot_water_kwh r)
         (req_cooling_kwh r) (req_lighting_kwh r) (req_auxiliary_kwh r))
      (req_electricity_percentage r)
      (other_sources r)
      (req_surface_m2 r)
      (req_is_rental_property r)
  else Raise ValidationError.

End Router.

(** ** The open-data fetcher *)

(** JSON documents as produced by [json.loads] and [response.json()]. *)
#[warnings="-register-all"]
Inductive json :=
| JNull
| JBool (b : bool)
| JInt (z : Z)
| JFloat (q : Q)
| JStr (s : string)
| JList (l : list json)
| JDict (m : gmap string json).

Module Fetcher.

Record DVFTransaction := mkDVFTransaction {
  id_mutation : string;
  date_mutation : datetime;
  nature_mutation : string;
  valeur_fonciere : Q;
  adresse_numero : option string;
  adresse_nom_voie : option string;
  code_postal : string;
  code_commune : string;
  nom_commune : string;
  type_local : string;
  surface_reelle_bati : option Q;
  nombre_pieces_principales : option Z;
  longitude : option Q;
  latitude : option Q
}.

Record DPEDiagnostic := mkDPEDiagnostic {
  n_dpe : string;
  date_etablissement_dpe : datetime;
  classe_consommation_energie : string;
  classe_estimation_ges : string;
  consommation_energie : Q;
  estimation_ges : Q;
  dpe_code_postal : string;
  type_batiment : string;
  annee_construction : option string;
  surface_habitable : Q;
  type_energie_principale_chauffage : string;
  type_installation_chauffage : option string;
  type_energie_n_1 : option string;
  conso_chauffage : option Q;
  conso_ecs : option Q;
  conso_refroidissement : option Q;
  conso_eclairage : option Q;
  conso_auxiliaires : option Q
}.

Record GDPRConfig := mkGDPRConfig {
  anonymization_level : string;
  include_exact_addresses : bool;
  data_retention_days : Z
}.

(** [GDPRConfig()] *)
Definition default_gdpr_config : GDPRConfig :=
  {| anonymization_level := "postal_code";
     include_exact_addresses := false;
     data_retention_days := 90 |}.

(** One entry of the list returned by [cross_reference_dvf_dpe]. *)
Record enriched_entry := mkEntry {
  transaction : DVFTransaction;
  dpe : option DPEDiagnostic;
  confidence : string
}.

(** *** Class constants *)

Definition DVF_BASE_URL : string :=
  "https://data.economie.gouv.fr/api/v2/catalog/datasets/dvf/records".
Definition ADEME_DPE_BASE_URL : string :=
  "https://data.ademe.fr/data-fair/api/v1/datasets/dpe-v2-logements-existants/lines".
Definition CACHE_TTL_DVF : Z := 86400.
Definition CACHE_TTL_DPE : Z := 43200.
Definition MAX_RETRIES : Z := 3.
Definition RETRY_BACKOFF_SECONDS : list Z := [1; 3; 9].

(** *** The process state and its monad *)

(** A value of the query-parameter dictionary. *)
Inductive param := PInt (z : Z) | PStr (s : string).

(** What one [session.get] does: a parsed body, an [aiohttp.ClientError]
    (connection failure, or non-2xx through [raise_for_status]), or any
    other exception. *)
Inductive attempt :=
| Responded (data : gmap string json)
| ClientError
| OtherFailure.

(** [redis_client] is [None] until [connect] is called; an entry holds its
    TTL and the serialised record list, which is identified with the JSON
    document that [json.loads] gives back.  [session] tells whether the HTTP
    session exists; [requests] counts the GETs issued and [slept] records the
    backoff delays, latest first. *)
Record world := mkWorld {
  redis_client : option (gmap string (Z * json));
  session : bool;
  requests : nat;
  slept : list Z
}.

Definition M (T : Type) : Type := world → result T * world.

#[global] Instance M_ret : MRet M := fun T x w => (Ok x, w).
#[global] Instance M_bind : MBind M := fun T U k m w =>
  match m w with
  | (Ok x, w') => k x w'
  | (Raise e, w') => (Raise e, w')
  end.
Definition raise {T} (e : exn) : M T := fun w => (Raise e, w).
Definition lift {T} (r : result T) : M T := fun w => (r, w).

(** *** Python helpers *)

(** [l[:n]] *)
Definition py_slice_to {T} (n : Z) (l : list T) : list T :=
  if Z.leb 0 n then take (Z.to_nat n) l
  else take (length l - Z.to_nat (- n)) l.

(** [str(n)] for an [int]. *)
Definition str_of_int (n : Z) : string := NilZero.string_of_int (Z.to_int n).

(** [" AND ".join(parts)] *)
Fixpoint join_and (parts : list string) : string :=
  match parts with
  | [] => ""
  | [p] => p
  | p :: rest => p +:+ " AND " +:+ join_and rest
  end.

(** [s.replace('Z', '+00:00')] *)
Fixpoint replace_Z (s : string) : string :=
  match s with
  | EmptyString => EmptyString
  | String c s' =>
      if Ascii.eqb c "Z"%char then "+00:00" +:+ replace_Z s'
      else String c (replace_Z s')
  end.

(** [sorted(params.items())]: insertion sort on the (distinct) keys. *)
Fixpoint insert_item (x : string * param) (l : list (string * param))
    : list (string * param) :=
  match l with
  | [] => [x]
  | y :: l' => if String.leb (fst x) (fst y) then x :: l else y :: insert_item x l'
  end.

Definition sorted_items (l : list (string * param)) : list (string * param) :=
  foldr insert_item [] l.

(** Truthiness of an [Optional[str]] argument. *)
Definition given (o : option string) : option string :=
  match o with
  | Some EmptyString => None
  | _ => o
  end.

(** The first maximal element of [best :: rest]: [max(..., key=...)]. *)
Fixpoint max_from {T} (ltb : T → T → bool) (best : T) (rest : list T) : T :=
  match rest with
  | [] => best
  | x :: rest' => max_from ltb (if ltb best x then x else best) rest'
  end.

(** Field validation of an [Optional[T]] model field. *)
Definition validate_optional {T} (validate : json → option T) (v : json)
    : option (option T) :=
  match v with
  | JNull => Some None
  | _ => Some <$> validate v
  end.

(** The elements of a JSON value that is sliced and iterated; a string is
    iterated character by character (bytes, in this model). *)
Definition as_sequence (v : json) : result (list json) :=
  match v with
  | JList l => Ok l
  | JStr s => Ok ((fun c => JStr (String c "")) <$> String.list_ascii_of_string s)
  | _ => Raise TypeError
  end.

(** *** Erasing the street-level address of raw data

    Two raw documents that become equal once the keys [adresse_numero] and
    [adresse_nom_voie] are erased from the fields of every record differ
    only in their street-level address values. *)

Definition scrub_fields (fields : json) : json :=
  match fields with
  | JDict f => JDict (delete "adresse_nom_voie" (delete "adresse_numero" f))
  | _ => fields
  end.

Definition scrub_record (record : json) : json :=
  match record with
  | JDict r => JDict (alter scrub_fields "fields" r)
  | _ => record
  end.

Definition scrub_records (records : json) : json :=
  match records with
  | JList l => JList (scrub_record <$> l)
  | _ => records
  end.

Definition scrub_response (response : gmap string json) : gmap string json :=
  alter scrub_records "records" response.

Definition scrub_attempt (a : attempt) : attempt :=
  match a with
  | Responded data => Responded (scrub_response data)
  | _ => a
  end.

Definition scrub_store (store : gmap string (Z * json))
    : gmap string (Z * json) :=
  (fun entry : Z * json => (entry.1, scrub_records entry.2)) <$> store.

Definition scrub_world (w : world) : world :=
  {| redis_client := scrub_store <$> redis_client w;
     session := session w;
     requests := requests w;
     slept := slept w |}.

(** A transaction without street-level fields. *)
Definition anonymous (t : DVFTransaction) : Prop :=
  adresse_numero t = None ∧ adresse_nom_voie t = None.

(** [(adresse_numero, adresse_nom_voie)] of each record of a raw list. *)
Definition street_fields (records : json) : list (option json * option json) :=
  match records with
  | JList l =>
      (fun record =>
         match record with
         | JDict r =>
             match r !! "fields" with
             | Some (JDict f) => (f !! "adresse_numero", f !! "adresse_nom_voie")
             | _ => (None, None)
             end
         | _ => (None, None)
         end) <$> l
  | _ => []
  end.

(** The street-level fields of the record list cached under [key]. *)
Definition cached_street_fields (w : world) (key : string)
    : option (list (option json * option json)) :=
  match redis_client w with
  | Some store => (fun entry : Z * json => street_fields entry.2) <$> store !! key
  | None => None
  end.

(** The street-level fields of a transaction. *)
Definition street_of (t : DVFTransaction) : option string * option string :=
  (adresse_numero t, adresse_nom_voie t).

Definition result_map {T U} (f : T → U) (r : result T) : result U :=
  match r with
  | Ok x => Ok (f x)
  | Raise e => Raise e
  end.

(** *** The join of cross_reference_dvf_dpe *)

(** [f"{postal}_{int(surface / 10) * 10}"] *)
Definition surface_band (surface : Q) : Z := py_int (surface / 10) * 10.

Definition surface_key (postal : string) (surface : Q) : string :=
  postal +:+ "_" +:+ str_of_int (surface_band surface).

(** The dictionary [dpe_map] after the first loop. *)
Definition build_dpe_map (diagnostics : list DPEDiagnostic)
    : gmap string (list DPEDiagnostic) :=
  fold_left
    (fun dpe_map dpe =>
       let key := surface_key (dpe_code_postal dpe) (surface_habitable dpe) in
       <[key := default [] (dpe_map !! key) ++ [dpe]]> dpe_map)
    diagnostics ∅.

Definition later_dpe (a b : DPEDiagnostic) : bool :=
  datetime_ltb (date_etablissement_dpe a) (date_etablissement_dpe b).

(** One iteration of the second loop: the entries appended for [txn]. *)
Definition enrich_one (dpe_map : gmap string (list DPEDiagnostic))
    (txn : DVFTransaction) : list enriched_entry :=
  match surface_reelle_bati txn with
  | None => []
  | Some surface =>
      if negb (Q_truthy surface) then []
      else
        let key := surface_key (code_postal txn) surface in
        match default [] (dpe_map !! key) with
        | [] => [ {| transaction := txn; dpe := None; confidence := "none" |} ]
        | first :: others =>
            let most_recent_dpe := max_from later_dpe first others in
            [ {| transaction := txn;
                 dpe := Some most_recent_dpe;
                 confidence := "medium" |} ]
        end
  end.

(** The join applied to the two fetched lists. *)
Definition enrich (transactions : list DVFTransaction)
    (diagnostics : list DPEDiagnostic) : list enriched_entry :=
  let dpe_map := build_dpe_map diagnostics in
  transactions ≫= enrich_one dpe_map.

(** *** Notions used to state the properties of the join *)

(** [txn] passes the test [if not txn.surface_reelle_bati: continue]. *)
Definition has_surface (txn : DVFTransaction) : bool :=
  match surface_reelle_bati txn with
  | Some surface => Q_truthy surface
  | None => false
  end.

(** A transaction of surface [surface] and a diagnostic share the postal
    code and the band. *)
Definition matches (txn : DVFTransaction) (surface : Q) (d : DPEDiagnostic)
    : Prop :=
  code_postal txn = dpe_code_postal d
  ∧ surface_band surface = surface_band (surface_habitable d).


(** [a] was issued no later than [b]. *)
Definition not_after (a b : DPEDiagnostic) : Prop :=
  datetime_leb (date_etablissement_dpe a) (date_etablissement_dpe b) = true.

(** [s] contains an underscore. *)
Fixpoint has_underscore (s : string) : bool :=
  match s with
  | EmptyString => false
  | String c s' => Ascii.eqb c "_" || has_underscore s'
  end.

(** What an entry says about its transaction, given the diagnostics. *)
Definition entry_sound (diagnostics : list DPEDiagnostic) (e : enriched_entry)
    (surface : Q) : Prop :=
  match dpe e with
  | Some best =>
      confidence e = "medium"
      ∧ best ∈ diagnostics
      ∧ matches (transaction e) surface best
      ∧ ∀ d, d ∈ diagnostics → matches (transaction e) surface d →
             not_after d best
  | None =>
      confidence e = "none"
      ∧ ∀ d, d ∈ diagnostics → ¬ matches (transaction e) surface d
  end.

Section Service.

(** Library functions the service calls: [urllib.parse.urlencode],
    [hashlib.md5(...).hexdigest()], [strftime('%Y-%m-%d')],
    [datetime.fromisoformat], [float] on a string, the pydantic validators
    of the scalar field types, and [d - timedelta(days=n)]. *)
Variable urlencode : list (string * param) → string.
Variable md5_hexdigest : string → string.
Variable strftime_ymd : datetime → string.
Variable fromisoformat : string → option datetime.
Variable float_of_str : string → option Q.
Variable validate_str : json → option string.
Variable validate_float : json → option Q.
Variable validate_int : json → option Z.
Variable minus_days : datetime → Z → datetime.

(** The upstream providers: the outcome of the [n]-th GET of the process,
    by URL and query parameters. *)
Variable http_get : string → list (string * param) → nat → attempt.

(** [self.gdpr_config] and the reading of [datetime.now()]. *)
Variable gdpr_config : GDPRConfig.
Variable now : datetime.

Definition _generate_cache_key (prefix : string)
    (params : list (string * param)) : string :=
  let sorted_params := sorted_items params in
  let params_str := urlencode sorted_params in
  let hash_suffix := String.substring 0 8 (md5_hexdigest params_str) in
  "ecoimmo:" +:+ prefix +:+ ":" +:+ hash_suffix.

(** A Redis error is caught and reads as a miss; it is not modelled. *)
Definition _get_from_cache (cache_key : string) : M (option json) :=
  fun w =>
    match redis_client w with
    | None => (Ok None, w)
    | Some store => (Ok (snd <$> store !! cache_key), w)
    end.

Definition _set_to_cache (cache_key : string) (data : json) (ttl : Z) : M unit :=
  fun w =>
    match redis_client w with
    | None => (Ok (), w)
    | Some store =>
        (Ok (), {| redis_client := Some (<[cache_key := (ttl, data)]> store);
                   session := session w;
                   requests := requests w;
                   slept := slept w |})
    end.

(** The iterations [attempt_no, attempt_no + 1, ...] of the retry loop. *)
Fixpoint retry_loop (remaining : nat) (attempt_no : Z) (url : string)
    (params : list (string * param)) (max_retries : Z)
    : M (option (gmap string json)) :=
  match remaining with
  | O => mret None
  | S remaining' => fun w =>
      let w1 := {| redis_client := redis_client w;
                   session := session w;
                   requests := S (requests w);
                   slept := slept w |} in
      match http_get url params (requests w) with
      | Responded data => (Ok (Some data), w1)
      | ClientError =>
          if Z.ltb attempt_no (max_retries - 1) then
            match RETRY_BACKOFF_SECONDS !! Z.to_nat attempt_no with
            | Some backoff =>
                retry_loop remaining' (attempt_no + 1) url params max_retries
                  {| redis_client := redis_client w1;
                     session := session w1;
                     requests := requests w1;
                     slept := backoff :: slept w1 |}
            | None => (Raise IndexError, w1)
            end
          else (Ok None, w1)
      | OtherFailure => (Raise OtherError, w1)
      end
  end.

Definition _fetch_with_retry (url : string) (params : list (string * param))
    (max_retries : Z) : M (option (gmap string json)) :=
  fun w =>
    if session w
    then retry_loop (Z.to_nat max_retries) 0 url params max_retries w
    else (Raise RuntimeError, w).

(** [transaction] is mutated in place and returned; the value returned is
    the state of that dictionary after the call. *)
Definition _anonymize_address (transaction : json) : result json :=
  if negb (include_exact_addresses gdpr_config) then
    match transaction with
    | JDict t =>
        let t := delete "adresse_numero" t in
        let t := delete "adresse_nom_voie" t in
        let t :=
          if String.eqb (anonymization_level gdpr_config) "commune"
          then delete "latitude" (delete "longitude" t)
          else t in
        Ok (JDict t)
    | JList _ => Raise TypeError
    | _ => Raise AttributeError
    end
  else Ok transaction.

(** [float(v)] *)
Definition py_float (v : json) : option Q :=
  match v with
  | JInt z => Some (inject_Z z)
  | JFloat q => Some q
  | JBool b => Some (if b then 1 else 0)%Q
  | JStr s => float_of_str s
  | _ => None
  end.

(** [datetime.fromisoformat(v.replace('Z', '+00:00'))] *)
Definition parse_date (v : json) : option datetime :=
  match v with
  | JStr s => fromisoformat (replace_Z s)
  | _ => None
  end.

(** The body of the [try] of [fetch_dvf_transactions]; [None] when it
    raises, which skips the record. *)
Definition parse_dvf (fields : json) : option DVFTransaction :=
  match fields with
  | JDict f =>
      let get k d := default d (f !! k) in
      v_id ← validate_str (get "id_mutation" (JStr ""));
      v_date ← parse_date (get "date_mutation" (JStr ""));
      v_nature ← validate_str (get "nature_mutation" (JStr ""));
      v_valeur ← py_float (get "valeur_fonciere" (JInt 0));
      v_numero ← validate_optional validate_str (get "adresse_numero" JNull);
      v_voie ← validate_optional validate_str (get "adresse_nom_voie" JNull);
      v_postal ← validate_str (get "code_postal" (JStr ""));
      v_commune ← validate_str (get "code_commune" (JStr ""));
      v_nom ← validate_str (get "nom_commune" (JStr ""));
      v_type ← validate_str (get "type_local" (JStr ""));
      v_surface ← validate_optional validate_float (get "surface_reelle_bati" JNull);
      v_pieces ← validate_optional validate_int (get "nombre_pieces_principales" JNull);
      v_lon ← validate_optional validate_float (get "longitude" JNull);
      v_lat ← validate_optional validate_float (get "latitude" JNull);
      Some {| id_mutation := v_id;
              date_mutation := v_date;
              nature_mutation := v_nature;
              valeur_fonciere := v_valeur;
              adresse_numero := v_numero;
              adresse_nom_voie := v_voie;
              code_postal := v_postal;
              code_commune := v_commune;
              nom_commune := v_nom;
              type_local := v_type;
              surface_reelle_bati := v_surface;
              nombre_pieces_principales := v_pieces;
              longitude := v_lon;
              latitude := v_lat |}
  | _ => None
  end.

(** The body of the [try] of [fetch_dpe_diagnostics]. *)
Definition parse_dpe (result : json) : option DPEDiagnostic :=
  match result with
  | JDict f =>
      let get k d := default d (f !! k) in
      v_n ← validate_str (get "N°DPE" (JStr ""));
      v_date ← parse_date (get "Date_établissement_DPE" (JStr ""));
      v_classe ← validate_str (get "Classe_consommation_énergie" (JStr ""));
      v_ges ← validate_str (get "Classe_estimation_GES" (JStr ""));
      v_conso ← py_float (get "Consommation_énergie" (JInt 0));
      v_est ← py_float (get "Estimation_GES" (JInt 0));
      v_postal ← validate_str (get "Code_postal_(BAN)" (JStr ""));
      v_type ← validate_str (get "Type_bâtiment" (JStr ""));
      v_annee ← validate_optional validate_str (get "Année_construction" JNull);
      v_surface ← py_float (get "Surface_habitable_logement" (JInt 0));
      v_energie ← validate_str (get "Type_énergie_principale_chauffage" (JStr ""));
      v_install ← validate_optional validate_str (get "Type_installation_chauffage" JNull);
      v_n1 ← validate_optional validate_str (get "Type_énergie_n°1" JNull);
      v_ch ← validate_optional validate_float (get "Conso_chauffage_é_finale" JNull);
      v_ecs ← validate_optional validate_float (get "Conso_ECS_é_finale" JNull);
      v_ref ← validate_optional validate_float (get "Conso_refroidissement_é_finale" JNull);
      v_ecl ← validate_optional validate_float (get "Conso_éclairage_é_finale" JNull);
      v_aux ← validate_optional validate_float (get "Conso_auxiliaires_é_finale" JNull);
      Some {| n_dpe := v_n;
              date_etablissement_dpe := v_date;
              classe_consommation_energie := v_classe;
              classe_estimation_ges := v_ges;
              consommation_energie := v_conso;
              estimation_ges := v_est;
              dpe_code_postal := v_postal;
              type_batiment := v_type;
              annee_construction := v_annee;
              surface_habitable := v_surface;
              type_energie_principale_chauffage := v_energie;
              type_installation_chauffage := v_install;
              type_energie_n_1 := v_n1;
              conso_chauffage := v_ch;
              conso_ecs := v_ecs;
              conso_refroidissement := v_ref;
              conso_eclairage := v_ecl;
              conso_auxiliaires := v_aux |}
  | _ => None
  end.

(** *** fetch_dvf_transactions *)

(** The query parameters built from the filters. *)
Definition dvf_params (code_postal code_commune : option string)
    (date_min date_max : option datetime) (type_local : option string)
    (limit : Z) : list (string * param) :=
  let clause (prefix : string) (o : option string) : list string :=
    match o with
    | Some v => [prefix +:+ v +:+ "'"]
    | None => []
    end in
  let where_clauses :=
    clause "code_postal='" (given code_postal)
    ++ clause "code_commune='" (given code_commune)
    ++ clause "date_mutation>='" (strftime_ymd <$> date_min)
    ++ clause "date_mutation<='" (strftime_ymd <$> date_max)
    ++ clause "type_local='" (given type_local) in
  ("limit", PInt limit)
  :: match where_clauses with
     | [] => []
     | _ => [("where", PStr (join_and where_clauses))]
     end.

(** The loop "Parse and anonymize" over the sliced records.  A record
    without [.get], or fields that cannot be popped, raise out of the
    fetch; a record that fails to parse is skipped. *)
Fixpoint parse_dvf_records (records : list json) : result (list DVFTransaction) :=
  match records with
  | [] => Ok []
  | JDict record :: rest =>
      let fields := default (JDict ∅) (record !! "fields") in
      match _anonymize_address fields with
      | Raise e => Raise e
      | Ok fields =>
          match parse_dvf_records rest with
          | Raise e => Raise e
          | Ok transactions =>
              Ok match parse_dvf fields with
                 | Some transaction => transaction :: transactions
                 | None => transactions
                 end
          end
      end
  | _ :: _ => Raise AttributeError
  end.

Definition dvf_of_records (records : json) (limit : Z)
    : result (list DVFTransaction) :=
  match as_sequence records with
  | Raise e => Raise e
  | Ok l => parse_dvf_records (py_slice_to limit l)
  end.

(** [not response or 'records' not in response] holds of a dictionary
    exactly when it has no key ['records']. *)
Definition fetch_dvf_transactions (code_postal code_commune : option string)
    (date_min date_max : option datetime) (type_local : option string)
    (limit : Z) : M (list DVFTransaction) :=
  let params :=
    dvf_params code_postal code_commune date_min date_max type_local limit in
  let cache_key := _generate_cache_key "dvf" params in
  cached_data ← _get_from_cache cache_key;
  match cached_data with
  | Some records => lift (dvf_of_records records limit)
  | None =>
      response ← _fetch_with_retry DVF_BASE_URL params MAX_RETRIES;
      match response ≫= (.!! "records") with
      | None => mret []
      | Some records =>
          _set_to_cache cache_key records CACHE_TTL_DVF;;
          lift (dvf_of_records records limit)
      end
  end.

(** *** fetch_dpe_diagnostics *)

Definition dpe_params (code_postal classe_consommation type_batiment : option string)
    (date_min : option datetime) (limit : Z) : list (string * param) :=
  let part (prefix : string) (o : option string) : list string :=
    match o with
    | Some v => [prefix +:+ v]
    | None => []
    end in
  let query_parts :=
    part "Code_postal_(BAN):" (given code_postal)
    ++ part "Classe_consommation_énergie:" (given classe_consommation)
    ++ part "Type_bâtiment:" (given type_batiment)
    ++ part "Date_établissement_DPE:>=" (strftime_ymd <$> date_min) in
  ("size", PInt limit)
  :: match query_parts with
     | [] => []
     | _ => [("q", PStr (join_and query_parts))]
     end.

Definition dpe_of_results (results : json) (limit : Z)
    : result (list DPEDiagnostic) :=
  match as_sequence results with
  | Raise e => Raise e
  | Ok l => Ok (omap parse_dpe (py_slice_to limit l))
  end.

Definition fetch_dpe_diagnostics
    (code_postal classe_consommation type_batiment : option string)
    (date_min : option datetime) (limit : Z) : M (list DPEDiagnostic) :=
  let params :=
    dpe_params code_postal classe_consommation type_batiment date_min limit in
  let cache_key := _generate_cache_key "dpe" params in
  cached_data ← _get_from_cache cache_key;
  match cached_data with
  | Some results => lift (dpe_of_results results limit)
  | None =>
      response ← _fetch_with_retry ADEME_DPE_BASE_URL params MAX_RETRIES;
      match response ≫= (.!! "results") with
      | None => mret []
      | Some results =>
          _set_to_cache cache_key results CACHE_TTL_DPE;;
          lift (dpe_of_results results limit)
      end
  end.

(** *** cross_reference_dvf_dpe *)

(** The two fetches are awaited together with [asyncio.gather]; they use
    distinct cache keys and the join starts once both have completed, so
    they are sequenced here. *)
Definition cross_reference_dvf_dpe (code_postal : string) (date_range_days : Z)
    : M (list enriched_entry) :=
  let date_min := minus_days now date_range_days in
  transactions ←
    fetch_dvf_transactions (Some code_postal) None (Some date_min) None None 200;
  diagnostics ←
    fetch_dpe_diagnostics (Some code_postal) None None (Some date_min) 200;
  mret (enrich transactions diagnostics).

(** *** Notions used to state the properties *)




(** The value under key [k] of a record that [_anonymize_address] has
    processed, from the record [t] it was given. *)
Definition anonymized_lookup (t : gmap string json) (k : string) : option json :=
  if include_exact_addresses gdpr_config then t !! k
  else if String.eqb k "adresse_numero" || String.eqb k "adresse_nom_voie"
  then None
  else if String.eqb (anonymization_level gdpr_config) "commune"
          && (String.eqb k "longitude" || String.eqb k "latitude")
  then None
  else t !! k.

End Service.

End Fetcher.

(** ** Reference instances of the library functions and fixtures

    Simple executable stand-ins for the library functions the fetcher is
    parameterised by, used to run the model on concrete inputs. *)

Module Sample.

Import Fetcher.

Definition show_param (p : param) : string :=
  match p with
  | PInt z => str_of_int z
  | PStr s => s
  end.

(** [k1=v1&k2=v2], without percent-escaping. *)
Fixpoint urlencode (items : list (string * param)) : string :=
  match items with
  | [] => ""
  | [(k, v)] => k +:+ "=" +:+ show_param v
  | (k, v) :: rest => k +:+ "=" +:+ show_param v +:+ "&" +:+ urlencode rest
  end.

(** A digest stand-in: the text itself. *)
Definition md5_hexdigest (s : string) : string := s.

Definition pad2 (n : Z) : string :=
  if Z.ltb n 10 then "0" +:+ str_of_int n else str_of_int n.

Definition strftime_ymd (d : datetime) : string :=
  str_of_int (dt_year d) +:+ "-" +:+ pad2 (dt_month d) +:+ "-" +:+ pad2 (dt_day d).

Definition nat_of_digits (s : string) : option Z :=
  Z.of_uint <$> NilEmpty.uint_of_string s.

(** Dates of the form [YYYY-MM-DD]. *)
Definition fromisoformat (s : string) : option datetime :=
  if Nat.eqb (String.length s) 10 then
    y ← nat_of_digits (String.substring 0 4 s);
    m ← nat_of_digits (String.substring 5 2 s);
    d ← nat_of_digits (String.substring 8 2 s);
    Some (datetime_ymd y m d)
  else None.

(** Integer literals only. *)
Definition float_of_str (s : string) : option Q :=
  (fun i => inject_Z (Z.of_int i)) <$> NilZero.int_of_string s.

Definition validate_str (v : json) : option string :=
  match v with JStr s => Some s | _ => None end.

Definition validate_float (v : json) : option Q :=
  match v with
  | JFloat q => Some q
  | JInt z => Some (inject_Z z)
  | _ => None
  end.

Definition validate_int (v : json) : option Z :=
  match v with JInt z => Some z | _ => None end.

(** Days since 1970-01-01 of a civil date, and back. *)
Definition days_from_civil (y m d : Z) : Z :=
  let y := if Z.leb m 2 then y - 1 else y in
  let era := y / 400 in
  let yoe := y - era * 400 in
  let doy := (153 * (if Z.ltb 2 m then m - 3 else m + 9) + 2) / 5 + d - 1 in
  let doe := yoe * 365 + yoe / 4 - yoe / 100 + doy in
  era * 146097 + doe - 719468.

Definition civil_from_days (z : Z) : Z * Z * Z :=
  let z := z + 719468 in
  let era := z / 146097 in
  let doe := z - era * 146097 in
  let yoe := (doe - doe / 1460 + doe / 36524 - doe / 146096) / 365 in
  let y := yoe + era * 400 in
  let doy := doe - (365 * yoe + yoe / 4 - yoe / 100) in
  let mp := (5 * doy + 2) / 153 in
  let d := doy - (153 * mp + 2) / 5 + 1 in
  let m := if Z.ltb mp 10 then mp + 3 else mp - 9 in
  (if Z.leb m 2 then y + 1 else y, m, d).

Definition minus_days (t : datetime) (n : Z) : datetime :=
  let '(y, m, d) :=
    civil_from_days (days_from_civil (dt_year t) (dt_month t) (dt_day t) - n) in
  mk_datetime y m d (dt_micro t).

Definition now : datetime := mk_datetime 2026 1 15 0.

(** A raw DVF record with a street-level address. *)
Definition dvf_fields (id numero : string) (surface : json) : gmap string json :=
  list_to_map
    [ ("id_mutation", JStr id);
      ("date_mutation", JStr "2025-06-01");
      ("nature_mutation", JStr "Vente");
      ("valeur_fonciere", JInt 350000);
      ("adresse_numero", JStr numero);
      ("adresse_nom_voie", JStr "RUE DE VAUGIRARD");
      ("code_postal", JStr "75015");
      ("code_commune", JStr "75115");
      ("nom_commune", JStr "Paris 15e");
      ("type_local", JStr "Appartement");
      ("surface_reelle_bati", surface);
      ("nombre_pieces_principales", JInt 3);
      ("longitude", JFloat (229 # 100));
      ("latitude", JFloat (4884 # 100)) ].

Definition dvf_record (id numero : string) (surface : json) : json :=
  JDict {[ "fields" := JDict (dvf_fields id numero surface) ]}.

Definition dvf_response (records : list json) : gmap string json :=
  {[ "records" := JList records ]}.

(** An upstream that serves [dvf_response records] on every request. *)
Definition serving (records : list json)
    (url : string) (params : list (string * param)) (n : nat) : attempt :=
  Responded (dvf_response records).

(** An upstream whose every request fails with a client error. *)
Definition down (url : string) (params : list (string * param)) (n : nat)
    : attempt := ClientError.

(** An upstream whose first two requests fail with a client error and
    whose later ones fail with another exception (a timeout, a body that
    is not JSON). *)
Definition flaky (url : string) (params : list (string * param)) (n : nat)
    : attempt :=
  if Nat.ltb n 2 then ClientError else OtherFailure.


(** A connected process with an empty cache. *)
Definition fresh : world :=
  {| redis_client := Some ∅; session := true; requests := 0; slept := [] |}.

(** The transaction parsed from [dvf_record id _ surface] once the
    street-level fields are gone. *)
Definition txn (id : string) (surface : option Q) : DVFTransaction :=
  {| id_mutation := id; date_mutation := datetime_ymd 2025 6 1;
     nature_mutation := "Vente"; valeur_fonciere := 350000;
     adresse_numero := None; adresse_nom_voie := None;
     code_postal := "75015"; code_commune := "75115";
     nom_commune := "Paris 15e"; type_local := "Appartement";
     surface_reelle_bati := surface; nombre_pieces_principales := Some 3;
     longitude := Some (229 # 100)%Q; latitude := Some (4884 # 100)%Q |}.

(** The diagnostic parsed from [dpe_result n surface _]. *)
Definition diag (n : string) (surface : Z) (issued : datetime)
    : DPEDiagnostic :=
  {| n_dpe := n; date_etablissement_dpe := issued;
     classe_consommation_energie := "D"; classe_estimation_ges := "C";
     consommation_energie := 210; estimation_ges := 30;
     dpe_code_postal := "75015"; type_batiment := "appartement";
     annee_construction := None; surface_habitable := inject_Z surface;
     type_energie_principale_chauffage := "gaz";
     type_installation_chauffage := None; type_energie_n_1 := None;
     conso_chauffage := None; conso_ecs := None;
     conso_refroidissement := None; conso_eclairage := None;
     conso_auxiliaires := None |}.

(** The consumption of the worked example of the calculator. *)
Definition consumption : Calculator.EnergyConsumption :=
  Calculator.mkEnergyConsumption 200 40 5 10 15.

(** The service run on the reference instances. *)
Definition fetch_dvf (http_get : string → list (string * param) → nat → attempt)
    (gdpr_config : GDPRConfig) :=
  fetch_dvf_transactions urlencode md5_hexdigest strftime_ymd fromisoformat
    float_of_str validate_str validate_float validate_int http_get gdpr_config.

Definition fetch_dpe (http_get : string → list (string * param) → nat → attempt) :=
  fetch_dpe_diagnostics urlencode md5_hexdigest strftime_ymd fromisoformat
    float_of_str validate_str validate_float http_get.

Definition reconcile (http_get : string → list (string * param) → nat → attempt)
    (gdpr_config : GDPRConfig) :=
  cross_reference_dvf_dpe urlencode md5_hexdigest strftime_ymd fromisoformat
    float_of_str validate_str validate_float validate_int minus_days http_get
    gdpr_config now.

Definition dvf_key (code_postal : string) (limit : Z) : string :=
  _generate_cache_key urlencode md5_hexdigest "dvf"
    (dvf_params strftime_ymd (Some code_postal) None None None None limit).

(** The list carried by an [Ok], the empty list otherwise. *)
Definition returned {T} (r : result (list T)) : list T :=
  match r with
  | Ok l => l
  | Raise _ => []
  end.

(** An upstream that answers the DVF endpoint with [records] and the ADEME
    endpoint with [results]. *)
Definition serving_both (records results : list json)
    (url : string) (params : list (string * param)) (n : nat) : attempt :=
  if String.eqb url DVF_BASE_URL
  then Responded {[ "records" := JList records ]}
  else Responded {[ "results" := JList results ]}.

Definition dpe_result (n : string) (surface : Z) (issued : string) : json :=
  JDict (list_to_map
    [ ("N°DPE", JStr n);
      ("Date_établissement_DPE", JStr issued);
      ("Classe_consommation_énergie", JStr "D");
      ("Classe_estimation_GES", JStr "C");
      ("Consommation_énergie", JInt 210);
      ("Estimation_GES", JInt 30);
      ("Code_postal_(BAN)", JStr "75015");
      ("Type_bâtiment", JStr "appartement");
      ("Surface_habitable_logement", JInt surface);
      ("Type_énergie_principale_chauffage", JStr "gaz") ]).

(** A fetch of one raw transaction whose street number is [numero]. *)
Definition one_record (numero : string) : list json :=
  [dvf_record "2025-1" numero (JInt 64)].

Definition run_fetch (numero : string) :=
  fetch_dvf (serving (one_record numero)) default_gdpr_config
    (Some "75015") None None None None 100 fresh.

(** Three raw transactions (surfaces 64, 71 and none) and two raw
    diagnostics of surface 68, issued in March and in April. *)
Definition three_records : list json :=
  [ dvf_record "2025-1" "12" (JInt 64);
    dvf_record "2025-2" "14" (JInt 71);
    dvf_record "2025-3" "16" JNull ].

Definition two_results : list json :=
  [ dpe_result "a" 68 "2025-03-01";
    dpe_result "b" 68 "2025-04-01" ].




End Sample.

(** ** Further notions used to state properties of the engine *)

Module CalculatorNotions.

Import Calculator.

(** The class of an integer reading, by upper edges. *)
Definition class_of_integer (n : Z) : DPEClassification :=
  if Z.leb n 70 then A
  else if Z.leb n 110 then B
  else if Z.leb n 180 then C
  else if Z.leb n 250 then D
  else if Z.leb n 330 then E
  else if Z.leb n 420 then F
  else G.

(** The renewable-energy action. *)
Definition solar_action : string :=
  "Panneaux solaires photovoltaïques (autoconsommation)".


(** [bound < x], as the tests of the engine decide it. *)
Definition exceeds (x bound : Q) : bool :=
  if Qlt_le_dec bound x then true else false.

End CalculatorNotions.

(** ** Further notions used to state properties of the fetcher *)

Module FetcherNotions.

Import Fetcher.

(** Order of two query parameters: that of their names. *)
Definition by_name (x y : string * param) : Prop := String.le x.1 y.1.


(** The record list cached under [key], if any. *)
Definition cached (w : world) (key : string) : option json :=
  redis_client w ≫= fun store => snd <$> store !! key.

(** The shape the two dataset fetchers share: serve the cached list, or
    call upstream, store the list found under [field] and serve it.
    [parse] is the loop that builds the entities. *)
Definition cached_fetch {T}
    (http_get : string → list (string * param) → nat → attempt)
    (key url : string) (params : list (string * param)) (field : string)
    (ttl : Z) (parse : json → result (list T)) (w : world)
    : result (list T) * world :=
  match _get_from_cache key w with
  | (Ok (Some records), w0) => (parse records, w0)
  | (Ok None, w0) =>
      match _fetch_with_retry http_get url params MAX_RETRIES w0 with
      | (Ok response, w1) =>
          match response ≫= (.!! field) with
          | None => (Ok [], w1)
          | Some records =>
              (parse records, (_set_to_cache key records ttl w1).2)
          end
      | (Raise e, w1) => (Raise e, w1)
      end
  | (Raise e, w0) => (Raise e, w0)
  end.

(** A raw record the loop of the transaction fetch can take apart: an
    object whose [fields], when present, are an object. *)
Definition well_formed_record (record : json) : bool :=
  match record with
  | JDict r =>
      match r !! "fields" with
      | None | Some (JDict _) => true
      | Some _ => false
      end
  | _ => false
  end.

(** A transaction located no more precisely than its commune. *)
Definition without_coordinates (t : DVFTransaction) : Prop :=
  longitude t = None ∧ latitude t = None.

(** The diagnostics a transaction of surface [surface] is compared with:
    those filed under its key, in the order they were fetched. *)
Definition candidates (txn : DVFTransaction) (surface : Q)
    (diagnostics : list DPEDiagnostic) : list DPEDiagnostic :=
  List.filter
    (fun d => String.eqb
                (surface_key (dpe_code_postal d) (surface_habitable d))
                (surface_key (code_postal txn) surface))
    diagnostics.

(** The computation returned a value. *)
Definition returns {T} (r : result T) : Prop :=
  match r with
  | Ok _ => True
  | Raise _ => False
  end.

End FetcherNotions.

(** ** Further reference instances *)

Module Fixtures.

Import Fetcher.

(** A process whose cache is connected and empty but whose HTTP session
    was never opened. *)
Definition offline : world :=
  {| redis_client := Some ∅; session := false; requests := 0; slept := [] |}.

(** The process [Sample.fresh] after one request. *)
Definition after_one_request : world :=
  {| redis_client := Some ∅; session := true; requests := 1; slept := [] |}.

(** [GDPRConfig(anonymization_level="commune")] *)
Definition commune_level : GDPRConfig :=
  {| anonymization_level := "commune";
     include_exact_addresses := false;
     data_retention_days := 90 |}.

End Fixtures.

(** ** The handlers of the property router

    [search_properties] and [passoire_thermique_map] of
    [routers/properties.py].  The query constraints ([ge=1, le=500]) are
    checked by the framework before the handler runs, which answers 422. *)

Module Endpoints.

Import Fetcher.

(** How a call to a handler ends: with a response body, with an
    [HTTPException] (raised by the handler, or the 422 of validation), or
    with another exception that leaves the handler. *)
Inductive outcome (T : Type) :=
| Answer (body : T)
| HTTPException (status_code : Z)
| Uncaught (e : exn)
| ZeroDivisionError.
Arguments Answer {T} body.
Arguments HTTPException {T} status_code.
Arguments Uncaught {T} e.
Arguments ZeroDivisionError {T}.

Record search_response := mkSearchResponse {
  total : Z;
  properties : list enriched_entry;
  metadata_code_postal : string;
  with_dpe : Z;
  without_dpe : Z
}.

Record map_response := mkMapResponse {
  map_code_postal : string;
  total_properties : Z;
  passoire_thermique_count : Z;
  passoire_percentage : Q;
  classification_distribution : gmap string Z;
  risk_level : string
}.

(** [p['dpe']] is truthy: a diagnostic, not [None]. *)
Definition dpe_truthy (p : enriched_entry) : bool :=
  match dpe p with
  | Some _ => true
  | None => false
  end.

(** [a / b] on two [int]s. *)
Definition true_div (a b : Z) : option Q :=
  if Z.eqb b 0 then None else Some (inject_Z a / inject_Z b)%Q.

(** [x > bound] *)
Definition gt (x bound : Q) : bool := negb (Qle_bool x bound).

(** The dictionary [classification_counts] before the loop. *)
Definition initial_counts : gmap string Z :=
  list_to_map [("A", 0); ("B", 0); ("C", 0); ("D", 0); ("E", 0); ("F", 0);
               ("G", 0)].

(** One iteration of the counting loop. *)
Definition count_class (classification_counts : gmap string Z)
    (dpe : DPEDiagnostic) : gmap string Z :=
  match classification_counts !! classe_consommation_energie dpe with
  | Some n =>
      <[classe_consommation_energie dpe := n + 1]> classification_counts
  | None => classification_counts
  end.

(** The response built from the fetched diagnostics.  The keys [F] and
    [G] are never removed from the dictionary, so indexing it cannot
    fail; the two divisions of [risk_level] are not guarded. *)
Definition map_of_diagnostics (code_postal : string)
    (diagnostics : list DPEDiagnostic) : outcome map_response :=
  let classification_counts := fold_left count_class diagnostics initial_counts in
  let passoire_count :=
    default 0 (classification_counts !! "F")
    + default 0 (classification_counts !! "G") in
  let total := Z.of_nat (length diagnostics) in
  let percentage :=
    if Z.ltb 0 total
    then (fun ratio => py_round (ratio * 100) 1) <$> true_div passoire_count total
    else Some 0%Q in
  let risk :=
    (fun ratio =>
       if gt ratio (3 # 10) then "high"
       else if gt ratio (15 # 100) then "medium"
       else "low") <$> true_div passoire_count total in
  match percentage, risk with
  | Some passoire_percentage, Some risk_level =>
      Answer {| map_code_postal := code_postal;
                total_properties := total;
                passoire_thermique_count := passoire_count;
                passoire_percentage := passoire_percentage;
                classification_distribution := classification_counts;
                risk_level := risk_level |}
  | _, _ => ZeroDivisionError
  end.

(** The response built from the reconciled entries. *)
Definition search_of_entries (code_postal : string)
    (type_local : option string) (limit : Z)
    (enriched_properties : list enriched_entry) : search_response :=
  let enriched_properties :=
    match given type_local with
    | Some wanted =>
        List.filter
          (fun p => String.eqb (Fetcher.type_local (transaction p)) wanted)
          enriched_properties
    | None => enriched_properties
    end in
  {| total := Z.of_nat (length enriched_properties);
     properties := py_slice_to limit enriched_properties;
     metadata_code_postal := code_postal;
     with_dpe := Z.of_nat (length (List.filter dpe_truthy enriched_properties));
     without_dpe :=
       Z.of_nat (length (List.filter (fun p => negb (dpe_truthy p))
                           enriched_properties)) |}.

Section Handlers.

Variable urlencode : list (string * param) → string.
Variable md5_hexdigest : string → string.
Variable strftime_ymd : datetime → string.
Variable fromisoformat : string → option datetime.
Variable float_of_str : string → option Q.
Variable validate_str : json → option string.
Variable validate_float : json → option Q.
Variable validate_int : json → option Z.
Variable minus_days : datetime → Z → datetime.
Variable http_get : string → list (string * param) → nat → attempt.
Variable gdpr_config : GDPRConfig.
Variable now : datetime.

(** [GET /search]: every exception of the body becomes a 500. *)
Definition search_properties (code_postal : string)
    (type_local : option string) (limit : Z) (w : world)
    : outcome search_response * world :=
  if Z.leb 1 limit && Z.leb limit 500 then
    match cross_reference_dvf_dpe urlencode md5_hexdigest strftime_ymd
            fromisoformat float_of_str validate_str validate_float
            validate_int minus_days http_get gdpr_config now code_postal 365 w
    with
    | (Ok enriched_properties, w') =>
        (Answer (search_of_entries code_postal type_local limit
                   enriched_properties), w')
    | (Raise e, w') => (HTTPException 500, w')
    end
  else (HTTPException 422, w).

(** [GET /passoire-thermique-map]: nothing is caught. *)
Definition passoire_thermique_map (code_postal : string) (w : world)
    : outcome map_response * world :=
  match fetch_dpe_diagnostics urlencode md5_hexdigest strftime_ymd
          fromisoformat float_of_str validate_str validate_float http_get
          (Some code_postal) None None None 500 w
  with
  | (Ok diagnostics, w') => (map_of_diagnostics code_postal diagnostics, w')
  | (Raise e, w') => (Uncaught e, w')
  end.

End Handlers.

(** *** Notions used to state the properties of the handlers *)

(** The diagnostics of class [c]. *)
Definition of_class (c : string) (diagnostics : list DPEDiagnostic)
    : list DPEDiagnostic :=
  List.filter (fun d => String.eqb (classe_consommation_energie d) c)
    diagnostics.

Definition classes : list string := ["A"; "B"; "C"; "D"; "E"; "F"; "G"].

End Endpoints.

(** ** The recalculation step of the property doctor

    [_calculate_dpe_2026] and [_estimate_dpe_from_vision] of
    [services/ai_property_doctor.py], and the block of
    [routers/ai_property_doctor.py] that prepares [dpe_data]. *)

Module Doctor.

Import Calculator.











(** *** The valuation step and the risk level *)






End Doctor.

(** ** Reference runs of the handlers *)

Module Scenarios.

Import Fetcher Endpoints.

(** The body of an answer, [otherwise] when the handler did not answer. *)
Definition answered {T} (o : outcome T) (otherwise : T) : T :=
  match o with
  | Answer body => body
  | _ => otherwise
  end.

Definition upstream := Sample.serving_both Sample.three_records Sample.two_results.

(** The map of 75015 against the reference upstream. *)
Definition map_run :=
  passoire_thermique_map Sample.urlencode Sample.md5_hexdigest
    Sample.strftime_ymd Sample.fromisoformat Sample.float_of_str
    Sample.validate_str Sample.validate_float upstream "75015" Sample.fresh.

Definition map_body : map_response :=
  answered map_run.1
    {| map_code_postal := ""; total_properties := 0;
       passoire_thermique_count := 0; passoire_percentage := 0;
       classification_distribution := ∅; risk_level := "" |}.

(** The map of 75015 while the upstream is down. *)
Definition map_run_down :=
  passoire_thermique_map Sample.urlencode Sample.md5_hexdigest
    Sample.strftime_ymd Sample.fromisoformat Sample.float_of_str
    Sample.validate_str Sample.validate_float Sample.down "75015"
    Sample.fresh.

(** A search for flats in 75015 against the reference upstream. *)
Definition search_run :=
  search_properties Sample.urlencode Sample.md5_hexdigest Sample.strftime_ymd
    Sample.fromisoformat Sample.float_of_str Sample.validate_str
    Sample.validate_float Sample.validate_int Sample.minus_days upstream
    default_gdpr_config Sample.now "75015" (Some "Appartement") 100
    Sample.fresh.

Definition search_body : search_response :=
  answered search_run.1
    {| total := 0; properties := []; metadata_code_postal := "";
       with_dpe := 0; without_dpe := 0 |}.


End Scenarios.

(** * Properties of the recalculation engine *)

Module CalculatorProperties.

Import Calculator.

(** The loop over the class table, read as a chain of tests. *)
Lemma classify_unfold v :
  classify_energy_performance v =
  if Qle_bool 0 v && Qle_bool v 70 then A
  else if Qle_bool 71 v && Qle_bool v 110 then B
  else if Qle_bool 111 v && Qle_bool v 180 then C
  else if Qle_bool 181 v && Qle_bool v 250 then D
  else if Qle_bool 251 v && Qle_bool v 330 then E
  else if Qle_bool 331 v && Qle_bool v 420 then F
  else G.
Proof.
  unfold classify_energy_performance, DPE_THRESHOLDS; simpl.
  destruct (Qle_bool 421 v); reflexivity.
Qed.

Ltac next_test :=
  match goal with
  | |- context [if ?a && ?b then _ else _] =>
      let E := fresh "E" in
      destruct (a && b) eqn:E;
      [apply andb_true_iff in E as [?%Qle_bool_iff ?%Qle_bool_iff]|]
  end.

Lemma classify_below_upper v :
  classify_energy_performance v ≠ G →
  (v <= upper_edge (classify_energy_performance v))%Q.
Proof.
  rewrite classify_unfold.
  repeat (next_test; [intros _; simpl; assumption|]).
  intros []; reflexivity.
Qed.

Lemma classify_above_lower v :
  covered v = true →
  (lower_edge (classify_energy_performance v) <= v)%Q.
Proof.
  rewrite classify_unfold. unfold covered, DPE_THRESHOLDS; simpl.
  repeat (next_test; [intros _; simpl; assumption|]).
  rewrite !orb_false_r, andb_true_r. intros H%Qle_bool_iff. exact H.
Qed.

Lemma edges_ordered c1 c2 :
  rank c2 < rank c1 → (upper_edge c2 < lower_edge c1)%Q.
Proof. destruct c1, c2; simpl; intros; try lia; reflexivity. Qed.

(** On the values the table covers, a larger value never gets a better
    class. *)
Lemma classify_monotone_covered v1 v2 :
  covered v1 = true → (v1 <= v2)%Q →
  rank (classify_energy_performance v1) ≤ rank (classify_energy_performance v2).
Proof.
  intros Hc Hle.
  destruct (Z.le_gt_cases (rank (classify_energy_performance v1))
              (rank (classify_energy_performance v2))) as [|Hlt]; [assumption|].
  exfalso.
  assert (HG : classify_energy_performance v2 ≠ G).
  { intros HG. rewrite HG in Hlt.
    destruct (classify_energy_performance v1); simpl in Hlt; lia. }
  pose proof (classify_below_upper v2 HG).
  pose proof (classify_above_lower v1 Hc).
  pose proof (edges_ordered _ _ Hlt). lra.
Qed.

(** Integer readings from 0 upwards are always covered. *)
Lemma covered_integer (n : Z) : 0 ≤ n → covered (inject_Z n) = true.
Proof.
  intros Hn. unfold covered, DPE_THRESHOLDS. simpl.
  assert (Hz : ∀ a b : Z, Qle_bool (inject_Z a) (inject_Z b) = Z.leb a b).
  { intros a b. unfold Qle_bool, inject_Z. simpl. f_equal; lia. }
  change 0%Q with (inject_Z 0). change 70%Q with (inject_Z 70).
  change 71%Q with (inject_Z 71). change 110%Q with (inject_Z 110).
  change 111%Q with (inject_Z 111). change 180%Q with (inject_Z 180).
  change 181%Q with (inject_Z 181). change 250%Q with (inject_Z 250).
  change 251%Q with (inject_Z 251). change 330%Q with (inject_Z 330).
  change 331%Q with (inject_Z 331). change 420%Q with (inject_Z 420).
  change 421%Q with (inject_Z 421).
  rewrite !Hz.
  destruct (Z.leb_spec 0 n); [|lia].
  destruct (Z.leb_spec n 70); [reflexivity|].
  destruct (Z.leb_spec 71 n); [|lia].
  destruct (Z.leb_spec n 110); [reflexivity|].
  destruct (Z.leb_spec 111 n); [|lia].
  destruct (Z.leb_spec n 180); [reflexivity|].
  destruct (Z.leb_spec 181 n); [|lia].
  destruct (Z.leb_spec n 250); [reflexivity|].
  destruct (Z.leb_spec 251 n); [|lia].
  destruct (Z.leb_spec n 330); [reflexivity|].
  destruct (Z.leb_spec 331 n); [|lia].
  destruct (Z.leb_spec n 420); [reflexivity|].
  destruct (Z.leb_spec 421 n); [reflexivity|lia].
Qed.

(** C1, at the failing input: 70.5 lies between the intervals of A and B,
    falls through to the fallback and is classed G, while the larger value
    80 is classed B; the same happens through the whole engine for a
    gas-heated dwelling consuming 70.5. *)
Theorem classify_gap_falls_back_to_G :
  classify_energy_performance (141 # 2) = G
  ∧ classify_energy_performance 80 = B
  ∧ (0 <= 141 # 2)%Q ∧ (141 # 2 <= 80)%Q
  ∧ rank (classify_energy_performance 80)
    < rank (classify_energy_performance (141 # 2))
  ∧ covered (141 # 2) = false
  ∧ match calculate_full_dpe_2026 true (datetime_ymd 2026 1 1) "A" 70
            (mkEnergyConsumption (141 # 2) 0 0 0 0) 0 [("gas", 1%Q)] 50 false
    with
    | Ok r => recalculated_classification r = G ∧ is_passoire_thermique r = true
    | Raise _ => False
    end.
Proof.
  repeat split; try reflexivity; vm_compute; discriminate.
Qed.

Lemma add_source_factor acc source percentage :
  (add_source acc (source, percentage)
   == acc + percentage * source_factor source)%Q.
Proof.
  unfold add_source, source_factor.
  destruct (String.eqb source "gas"); [reflexivity|].
  destruct (String.eqb source "fuel_oil"); [reflexivity|].
  destruct (String.eqb source "wood"); [reflexivity|]. ring.
Qed.

Lemma fold_add_source others : ∀ acc acc',
  (acc == acc')%Q →
  (fold_left add_source others acc == acc' + others_sum others)%Q.
Proof.
  induction others as [|[source percentage] others IH]; intros acc acc' Hacc;
    simpl.
  - rewrite Hacc. ring.
  - rewrite (IH _ (acc' + percentage * source_factor source)%Q).
    + ring.
    + etransitivity; [apply add_source_factor|].
      apply Qplus_comp; [assumption|reflexivity].
Qed.

(** The weighted factor is the plain weighted sum of the shares as given:
    no share is clamped or normalised. *)
Lemma weighted_factor_sum e others :
  (weighted_conversion_factor e others
   == e * ELECTRICITY_FACTOR_2026 + others_sum others)%Q.
Proof.
  unfold weighted_conversion_factor.
  rewrite (fold_add_source others _ (e * ELECTRICITY_FACTOR_2026)%Q); [reflexivity|].
  ring.
Qed.


(** C5, counterexample: the recalculated energy of the scenario is not
    501.85. *)
Lemma scenario_energy_is_not_501_85 :
  ¬ (recalculate_with_2026_factor Sample.consumption (95 # 100)
       [("gas", (5 # 100)%Q)] == 50185 # 100)%Q.
Proof. vm_compute. discriminate. Qed.

Section EngineProperties.

Variable enable_ai_transparency : bool.
Variable now : datetime.

Let engine := calculate_full_dpe_2026 enable_ai_transparency now.


(** C5, as amended: total 270, weighted factor 1.855, recalculated energy
    270 x 1.855 = 500.85, above 420, hence class G and passoire thermique;
    for a rental the urgency is critical and the ban date 2025-01-01. *)
Theorem scenario_500_85
    original_dpe_class c original_energy surface_m2 is_rental_property :
  DPEClassification_of_string original_dpe_class = Ok c →
  (total_final_energy Sample.consumption == 270)%Q
  ∧ (weighted_conversion_factor (95 # 100) [("gas", (5 # 100)%Q)]
     == (95 # 100) * (19 # 10) + (5 # 100) * 1)%Q
  ∧ (weighted_conversion_factor (95 # 100) [("gas", (5 # 100)%Q)]
     == 1855 # 1000)%Q
  ∧ ∃ r, engine original_dpe_class original_energy Sample.consumption
           (95 # 100) [("gas", (5 # 100)%Q)] surface_m2 is_rental_property
         = Ok r
       ∧ (recalculated_primary_energy r == 270 * (1855 # 1000))%Q
       ∧ (recalculated_primary_energy r == 50085 # 100)%Q
       ∧ (420 < recalculated_primary_energy r)%Q
       ∧ recalculated_classification r = G
       ∧ is_passoire_thermique r = true
       ∧ (is_rental_property = true →
          renovation_urgency r = CRITICAL
          ∧ rental_ban_date r = Some (datetime_ymd 2025 1 1)).
Proof.
  intros Hc. split; [reflexivity|]. split; [reflexivity|].
  split; [reflexivity|].
  unfold engine, calculate_full_dpe_2026. rewrite Hc.
  eexists. split; [reflexivity|]. simpl.
  split; [reflexivity|]. split; [reflexivity|]. split; [reflexivity|].
  split; [reflexivity|]. split; [reflexivity|].
  intros ->. split; reflexivity.
Qed.

(** C6: a recalculation with a valid original class returns a result whose
    ban date is that of the table when the property is a rental of class
    G, F or E, and null in every other case; the three dates increase
    strictly from G to F to E. *)
Theorem rental_ban_date_table
    original_dpe_class c original_energy consumption electricity_percentage
    other_energy_sources surface_m2 is_rental_property :
  DPEClassification_of_string original_dpe_class = Ok c →
  ∃ r, engine original_dpe_class original_energy consumption
         electricity_percentage other_energy_sources surface_m2
         is_rental_property = Ok r
       ∧ rental_ban_date r
         = (if is_rental_property then
              match recalculated_classification r with
              | G => Some (datetime_ymd 2025 1 1)
              | F => Some (datetime_ymd 2028 1 1)
              | E => Some (datetime_ymd 2034 1 1)
              | A | B | C | D => None
              end
            else None)
       ∧ (is_Some (rental_ban_date r)
          ↔ is_rental_property = true
            ∧ (recalculated_classification r = E
               ∨ recalculated_classification r = F
               ∨ recalculated_classification r = G))
       ∧ datetime_ltb (datetime_ymd 2025 1 1) (datetime_ymd 2028 1 1) = true
       ∧ datetime_ltb (datetime_ymd 2028 1 1) (datetime_ymd 2034 1 1) = true.
Proof.
  intros Hc. unfold engine, calculate_full_dpe_2026. rewrite Hc.
  eexists. split; [reflexivity|].
  cbn [rental_ban_date recalculated_classification].
  generalize (classify_energy_performance
                (recalculate_with_2026_factor consumption
                   electricity_percentage other_energy_sources)).
  intros k. split; [destruct is_rental_property, k; reflexivity|].
  split; [|split; reflexivity].
  destruct is_rental_property, k; cbn; split;
    solve [ intros [? [=]] | intros [[=] _]
          | intros [_ [[=]|[[=]|[=]]]]
          | intros _; eauto ].
Qed.

End EngineProperties.

(** The scenario of C5 evaluated in binary64, as the interpreter does:
    the result is the double nearest to 500.85, within 10^-9 of it, and is
    classed G. *)
Lemma scenario_in_binary64 :
  let r := b64_recalculate
             (b64 0x19000000000000 (-45)) (b64 0x14000000000000 (-47))
             (b64 0x14000000000000 (-50)) (b64 0x14000000000000 (-49))
             (b64 0x1e000000000000 (-49)) (b64 0x1e666666666666 (-53))
             [("gas", b64 0x1999999999999a (-57))] in
  r = b64 0x1f4d999999999a (-44)
  ∧ ∃ q, b64_value r = Some q
         ∧ classify_energy_performance q = G
         ∧ ((50085 # 100) - (1 # 1000000000) < q)%Q
         ∧ (q < (50085 # 100) + (1 # 1000000000))%Q.
Proof.
  split; [vm_compute; reflexivity|].
  eexists. split; [vm_compute; reflexivity|].
  split; [vm_compute; reflexivity|]. split; reflexivity.
Qed.

(** Witness for C5: the rental of the module's own example. *)
Lemma scenario_500_85_witness :
  ∃ r, calculate_full_dpe_2026 true Sample.now "F" 621 Sample.consumption
         (95 # 100) [("gas", (5 # 100)%Q)] 65 true = Ok r
       ∧ recalculated_classification r = G
       ∧ renovation_urgency r = CRITICAL
       ∧ rental_ban_date r = Some (datetime_ymd 2025 1 1).
Proof.
  destruct (scenario_500_85 true Sample.now "F" F 621 65 true eq_refl)
    as (_ & _ & _ & r & Hr & _ & _ & _ & Hclass & _ & Hrental).
  destruct (Hrental eq_refl) as [Hu Hb].
  exists r. repeat split; assumption.
Defined.

(** Witness for C6: a rental recalculated to class F. *)
Lemma rental_ban_date_table_witness :
  ∃ r, calculate_full_dpe_2026 true Sample.now "E" 300
         (mkEnergyConsumption 300 50 0 10 10) 0 [("gas", 1%Q)] 80 true = Ok r
       ∧ rental_ban_date r
         = (if true then
              match recalculated_classification r with
              | G => Some (datetime_ymd 2025 1 1)
              | F => Some (datetime_ymd 2028 1 1)
              | E => Some (datetime_ymd 2034 1 1)
              | A | B | C | D => None
              end
            else None).
Proof.
  destruct (rental_ban_date_table true Sample.now "E" E 300
              (mkEnergyConsumption 300 50 0 10 10) 0 [("gas", 1%Q)] 80 true
              eq_refl) as (r & Hr & Hban & _).
  exists r. split; assumption.
Defined.

(** Where the range checks live: the request model of the endpoint turns
    away a share outside [0, 1] and a non-positive surface before the
    engine is called. *)
Lemma router_rejects_out_of_range now (r : Router.DPE2026AnalysisRequest) :
  ¬ (0 <= Router.req_electricity_percentage r <= 1)%Q
  ∨ ¬ (0 < Router.req_surface_m2 r)%Q →
  Router.analyze_dpe_2026 now r = Raise ValidationError.
Proof.
  intros H. unfold Router.analyze_dpe_2026.
  destruct (Router.request_valid r) eqn:Hv; [exfalso|reflexivity].
  unfold Router.request_valid in Hv.
  repeat (apply andb_true_iff in Hv as [Hv ?]).
  unfold Router.share, Router.gt0 in *.
  repeat match goal with
         | H : _ && _ = true |- _ => apply andb_true_iff in H as [? ?]
         | H : Qle_bool _ _ = true |- _ => apply Qle_bool_iff in H
         | H : negb _ = true |- _ =>
             apply negb_true_iff, not_true_iff_false in H;
             rewrite Qle_bool_iff in H
         end.
  destruct H as [H|H]; apply H; [split; assumption|lra].
Qed.

End CalculatorProperties.

(** * Properties of the fetcher *)

Module FetcherProperties.

Import Fetcher.

(** Lookups through the deletions made by the anonymization. *)
Ltac del :=
  repeat first [ rewrite lookup_delete_eq
               | rewrite lookup_delete_ne by congruence ].

(** ** Running the monad *)

Lemma bind_run {T U} (m : M T) (k : T → M U) w :
  (m ≫= k) w
  = match m w with
    | (Ok x, w') => k x w'
    | (Raise e, w') => (Raise e, w')
    end.
Proof. reflexivity. Qed.

Lemma ret_run {T} (x : T) w : (mret x : M T) w = (Ok x, w).
Proof. reflexivity. Qed.

Section Properties.

Variable urlencode : list (string * param) → string.
Variable md5_hexdigest : string → string.
Variable strftime_ymd : datetime → string.
Variable fromisoformat : string → option datetime.
Variable float_of_str : string → option Q.
Variable validate_str : json → option string.
Variable validate_float : json → option Q.
Variable validate_int : json → option Z.
Variable minus_days : datetime → Z → datetime.
Variable gdpr_config : GDPRConfig.
Variable now : datetime.

Let cache_key := _generate_cache_key urlencode md5_hexdigest.
Let parse_dvf :=
  parse_dvf fromisoformat float_of_str validate_str validate_float validate_int.
Let dvf_of_records :=
  dvf_of_records fromisoformat float_of_str validate_str validate_float
    validate_int gdpr_config.
Let dpe_of_results :=
  dpe_of_results fromisoformat float_of_str validate_str validate_float.

Section Upstream.

Variable http_get : string → list (string * param) → nat → attempt.

Let fetch_dvf_transactions :=
  fetch_dvf_transactions urlencode md5_hexdigest strftime_ymd fromisoformat
    float_of_str validate_str validate_float validate_int http_get gdpr_config.
Let fetch_dpe_diagnostics :=
  fetch_dpe_diagnostics urlencode md5_hexdigest strftime_ymd fromisoformat
    float_of_str validate_str validate_float http_get.

(** *** The retry loop *)

(** The loop touches neither the cache nor the session. *)
Lemma retry_loop_frame url params max_retries remaining : ∀ attempt_no w,
  redis_client (retry_loop http_get remaining attempt_no url params max_retries w).2
  = redis_client w
  ∧ session (retry_loop http_get remaining attempt_no url params max_retries w).2
    = session w.
Proof.
  induction remaining as [|remaining IH]; intros attempt_no w; simpl.
  - split; reflexivity.
  - destruct (http_get url params (requests w)); simpl; try (split; reflexivity).
    destruct (Z.ltb attempt_no (max_retries - 1)); simpl; try (split; reflexivity).
    destruct (RETRY_BACKOFF_SECONDS !! Z.to_nat attempt_no);
      simpl; try (split; reflexivity).
    match goal with
    | |- context [retry_loop _ _ ?a _ _ _ ?w'] => destruct (IH a w') as [-> ->]
    end.
    split; reflexivity.
Qed.

Lemma fetch_with_retry_frame url params max_retries w :
  redis_client (_fetch_with_retry http_get url params max_retries w).2
  = redis_client w.
Proof.
  unfold _fetch_with_retry. destruct (session w); [|reflexivity].
  apply retry_loop_frame.
Qed.


(** *** The two shapes of a transaction fetch *)

Lemma fetch_dvf_run code_postal code_commune date_min date_max type_local limit w :
  let params := dvf_params strftime_ymd code_postal code_commune date_min
                  date_max type_local limit in
  fetch_dvf_transactions code_postal code_commune date_min date_max
    type_local limit w
  = match _get_from_cache (cache_key "dvf" params) w with
    | (Ok (Some records), w0) => (dvf_of_records records limit, w0)
    | (Ok None, w0) =>
        match _fetch_with_retry http_get DVF_BASE_URL params MAX_RETRIES w0 with
        | (Ok response, w1) =>
            match response ≫= (.!! "records") with
            | None => (Ok [], w1)
            | Some records =>
                (dvf_of_records records limit,
                 (_set_to_cache (cache_key "dvf" params) records CACHE_TTL_DVF w1).2)
            end
        | (Raise e, w1) => (Raise e, w1)
        end
    | (Raise e, w0) => (Raise e, w0)
    end.
Proof.
  intros params. unfold fetch_dvf_transactions, Fetcher.fetch_dvf_transactions.
  fold params. rewrite bind_run. fold cache_key.
  destruct (_get_from_cache (cache_key "dvf" params) w) as [[[records|]|e] w0];
    try reflexivity.
  rewrite bind_run.
  destruct (_fetch_with_retry http_get DVF_BASE_URL params MAX_RETRIES w0)
    as [[response|e] w1]; try reflexivity.
  destruct (response ≫= (.!! "records")) as [records|]; try reflexivity.
  rewrite bind_run. unfold _set_to_cache, lift.
  destruct (redis_client w1); reflexivity.
Qed.

Lemma fetch_dpe_run code_postal classe type_batiment date_min limit w :
  let params := dpe_params strftime_ymd code_postal classe type_batiment
                  date_min limit in
  fetch_dpe_diagnostics code_postal classe type_batiment date_min limit w
  = match _get_from_cache (cache_key "dpe" params) w with
    | (Ok (Some results), w0) => (dpe_of_results results limit, w0)
    | (Ok None, w0) =>
        match _fetch_with_retry http_get ADEME_DPE_BASE_URL params MAX_RETRIES w0 with
        | (Ok response, w1) =>
            match response ≫= (.!! "results") with
            | None => (Ok [], w1)
            | Some results =>
                (dpe_of_results results limit,
                 (_set_to_cache (cache_key "dpe" params) results CACHE_TTL_DPE w1).2)
            end
        | (Raise e, w1) => (Raise e, w1)
        end
    | (Raise e, w0) => (Raise e, w0)
    end.
Proof.
  intros params. unfold fetch_dpe_diagnostics, Fetcher.fetch_dpe_diagnostics.
  fold params. rewrite bind_run. fold cache_key.
  destruct (_get_from_cache (cache_key "dpe" params) w) as [[[results|]|e] w0];
    try reflexivity.
  rewrite bind_run.
  destruct (_fetch_with_retry http_get ADEME_DPE_BASE_URL params MAX_RETRIES w0)
    as [[response|e] w1]; try reflexivity.
  destruct (response ≫= (.!! "results")) as [results|]; try reflexivity.
  rewrite bind_run. unfold _set_to_cache, lift.
  destruct (redis_client w1); reflexivity.
Qed.


(** An attempt that fails with anything but a client error is not
    retried: the exception leaves the retry loop, and the fetch. *)
Lemma other_failure_propagates
    code_postal code_commune date_min date_max type_local limit w :
  let dvf := dvf_params strftime_ymd code_postal code_commune date_min
               date_max type_local limit in
  session w = true →
  _get_from_cache (cache_key "dvf" dvf) w = (Ok None, w) →
  http_get DVF_BASE_URL dvf (requests w) = OtherFailure →
  (fetch_dvf_transactions code_postal code_commune date_min date_max
     type_local limit w).1 = Raise OtherError.
Proof.
  intros dvf Hs Hmiss Hfail. rewrite fetch_dvf_run. fold dvf. rewrite Hmiss.
  unfold _fetch_with_retry. rewrite Hs. simpl. rewrite Hfail. reflexivity.
Qed.

(** *** Anonymization *)

(** C10: on a record, [_anonymize_address] never fails; with exact
    addresses excluded the record it returns has lost [adresse_numero]
    and [adresse_nom_voie], has lost [longitude] and [latitude] exactly
    when the level is "commune", and agrees with the input on every other
    key; with exact addresses included it is the input itself. *)
Theorem anonymize_address_frame (t : gmap string json) :
  ∃ t', _anonymize_address gdpr_config (JDict t) = Ok (JDict t')
        ∧ (∀ k, t' !! k = anonymized_lookup gdpr_config t k)
        ∧ (if include_exact_addresses gdpr_config then t' = t
           else t' !! "adresse_numero" = None
                ∧ t' !! "adresse_nom_voie" = None
                ∧ (if String.eqb (anonymization_level gdpr_config) "commune"
                   then t' !! "longitude" = None ∧ t' !! "latitude" = None
                   else t' !! "longitude" = t !! "longitude"
                        ∧ t' !! "latitude" = t !! "latitude")
                ∧ ∀ k, k ≠ "adresse_numero" → k ≠ "adresse_nom_voie" →
                       k ≠ "longitude" → k ≠ "latitude" →
                       t' !! k = t !! k).
Proof.
  unfold _anonymize_address, anonymized_lookup.
  destruct (include_exact_addresses gdpr_config); simpl.
  { exists t. repeat split; reflexivity. }
  eexists. split; [reflexivity|].
  destruct (String.eqb (anonymization_level gdpr_config) "commune"); simpl.
  - split; [|repeat split; intros; del; reflexivity].
    intros k.
    destruct (String.eqb_spec k "adresse_numero") as [->|]; [del; reflexivity|].
    destruct (String.eqb_spec k "adresse_nom_voie") as [->|]; [del; reflexivity|].
    destruct (String.eqb_spec k "longitude") as [->|]; [del; reflexivity|].
    destruct (String.eqb_spec k "latitude") as [->|]; del; reflexivity.
  - split; [|repeat split; intros; del; reflexivity].
    intros k.
    destruct (String.eqb_spec k "adresse_numero") as [->|]; [del; reflexivity|].
    destruct (String.eqb_spec k "adresse_nom_voie") as [->|]; [del; reflexivity|].
    rewrite orb_false_r. del; reflexivity.
Qed.

(** A parsed transaction takes its street-level fields from the keys of
    that name. *)
Lemma parse_dvf_street f t :
  parse_dvf (JDict f) = Some t →
  f !! "adresse_numero" = None → f !! "adresse_nom_voie" = None →
  adresse_numero t = None ∧ adresse_nom_voie t = None.
Proof.
  unfold parse_dvf, Fetcher.parse_dvf. intros H Hn Hv.
  rewrite Hn, Hv in H. simpl in H.
  repeat match type of H with
         | (?x ≫= _) = Some _ => destruct x; simpl in H; [|discriminate]
         end.
  injection H as <-. split; reflexivity.
Qed.

Lemma parse_dvf_records_anonymous records :
  include_exact_addresses gdpr_config = false →
  ∀ transactions,
    parse_dvf_records fromisoformat float_of_str validate_str validate_float
      validate_int gdpr_config records = Ok transactions →
    Forall anonymous transactions.
Proof.
  intros Hcfg. induction records as [|record rest IH]; simpl; intros ts Hts.
  - injection Hts as <-. constructor.
  - destruct record as [| | | | | |r]; try discriminate.
    unfold _anonymize_address in Hts. rewrite Hcfg in Hts. simpl in Hts.
    destruct (default (JDict ∅) (r !! "fields")) as [| | | | | |f] eqn:Hf;
      try discriminate.
    destruct (parse_dvf_records _ _ _ _ _ _ rest) as [ts'|e]; [|discriminate].
    specialize (IH ts' eq_refl).
    match type of Hts with
    | Ok (match ?p with _ => _ end) = _ => destruct p as [t|] eqn:Ht
    end; injection Hts as <-; [|assumption].
    constructor; [|assumption].
    apply (parse_dvf_street _ _ Ht).
    + destruct (String.eqb _ _); del; reflexivity.
    + destruct (String.eqb _ _); del; reflexivity.
Qed.

Lemma dvf_of_records_anonymous records limit transactions :
  include_exact_addresses gdpr_config = false →
  dvf_of_records records limit = Ok transactions →
  Forall anonymous transactions.
Proof.
  intros Hcfg. unfold dvf_of_records, Fetcher.dvf_of_records.
  destruct (as_sequence records) as [l|e]; [|discriminate].
  apply parse_dvf_records_anonymous; assumption.
Qed.

(** Whatever a transaction fetch returns was produced by the
    parse-and-anonymize loop, or is the empty list. *)
Lemma fetch_dvf_origin code_postal code_commune date_min date_max type_local
    limit w transactions :
  (fetch_dvf_transactions code_postal code_commune date_min date_max
     type_local limit w).1 = Ok transactions →
  transactions = [] ∨ ∃ records, dvf_of_records records limit = Ok transactions.
Proof.
  rewrite fetch_dvf_run. cbv zeta.
  destruct (_get_from_cache _ w) as [[[records|]|e] w0]; simpl;
    [eauto| |discriminate].
  destruct (_fetch_with_retry _ _ _ _ w0) as [[response|e] w1]; simpl;
    [|discriminate].
  destruct (response ≫= (.!! "records")) as [records|]; simpl; [eauto|].
  intros [= <-]. left; reflexivity.
Qed.

(** C3, as amended: on a cache miss answered by a body with the envelope
    field, the fetch stores under its key the record list exactly as
    received and returns the transactions that the parse-and-anonymize
    loop builds from it; on a cache hit it runs that loop on the cached
    list and leaves the cache as it is.  Anonymization thus acts on every
    fetch, on what is returned and never on what is cached. *)
Theorem cache_holds_records_as_received
    code_postal code_commune date_min date_max type_local limit w store :
  let params := dvf_params strftime_ymd code_postal code_commune date_min
                  date_max type_local limit in
  redis_client w = Some store →
  (∀ response w1 records,
     store !! cache_key "dvf" params = None →
     _fetch_with_retry http_get DVF_BASE_URL params MAX_RETRIES w
     = (Ok (Some response), w1) →
     response !! "records" = Some records →
     ∃ w2,
       fetch_dvf_transactions code_postal code_commune date_min date_max
         type_local limit w = (dvf_of_records records limit, w2)
       ∧ redis_client w2
         = Some (<[cache_key "dvf" params := (CACHE_TTL_DVF, records)]> store))
  ∧ (∀ ttl records,
       store !! cache_key "dvf" params = Some (ttl, records) →
       fetch_dvf_transactions code_postal code_commune date_min date_max
         type_local limit w = (dvf_of_records records limit, w)).
Proof.
  intros params Hredis. split.
  - intros response w1 records Hmiss Hfetch Hrec.
    rewrite fetch_dvf_run. fold params.
    unfold _get_from_cache. rewrite Hredis, Hmiss. simpl.
    rewrite Hfetch. simpl. rewrite Hrec.
    eexists. split; [reflexivity|].
    pose proof (fetch_with_retry_frame DVF_BASE_URL params MAX_RETRIES w) as Hfr.
    rewrite Hfetch in Hfr. simpl in Hfr.
    unfold _set_to_cache. rewrite Hfr, Hredis. reflexivity.
  - intros ttl records Hhit.
    rewrite fetch_dvf_run. fold params.
    unfold _get_from_cache. rewrite Hredis, Hhit. reflexivity.
Qed.

End Upstream.

(** *** Independence from the street-level address *)

Lemma anonymize_scrub fields :
  include_exact_addresses gdpr_config = false →
  _anonymize_address gdpr_config (scrub_fields fields)
  = _anonymize_address gdpr_config fields.
Proof.
  intros Hcfg. unfold _anonymize_address. rewrite Hcfg. simpl.
  destruct fields as [| | | | | |f]; try reflexivity. simpl.
  assert (delete "adresse_nom_voie"
            (delete "adresse_numero"
               (delete "adresse_nom_voie" (delete "adresse_numero" f)))
          = delete "adresse_nom_voie" (delete "adresse_numero" f)) as ->;
    [|reflexivity].
  apply map_eq. intros k. rewrite !lookup_delete.
  repeat case_decide; reflexivity.
Qed.

Lemma parse_dvf_records_scrub records :
  include_exact_addresses gdpr_config = false →
  parse_dvf_records fromisoformat float_of_str validate_str validate_float
    validate_int gdpr_config (scrub_record <$> records)
  = parse_dvf_records fromisoformat float_of_str validate_str validate_float
      validate_int gdpr_config records.
Proof.
  intros Hcfg. induction records as [|record rest IH]; [reflexivity|].
  rewrite fmap_cons.
  destruct record as [| | | | | |r]; try reflexivity.
  simpl. rewrite IH, lookup_alter_eq.
  destruct (r !! "fields") as [fields|]; simpl; [|reflexivity].
  rewrite anonymize_scrub by assumption. reflexivity.
Qed.

Lemma dvf_of_records_scrub records limit :
  include_exact_addresses gdpr_config = false →
  dvf_of_records (scrub_records records) limit = dvf_of_records records limit.
Proof.
  intros Hcfg. unfold dvf_of_records, Fetcher.dvf_of_records.
  destruct records as [| | | | |l|]; try reflexivity. simpl.
  assert (py_slice_to limit (scrub_record <$> l)
          = scrub_record <$> py_slice_to limit l) as ->.
  { unfold py_slice_to. rewrite length_fmap.
    destruct (Z.leb 0 limit); rewrite fmap_take; reflexivity. }
  apply parse_dvf_records_scrub; assumption.
Qed.

Section TwoUpstreams.

Variables http_get1 http_get2 : string → list (string * param) → nat → attempt.

Hypothesis upstreams_agree : ∀ url params n,
  scrub_attempt (http_get1 url params n) = scrub_attempt (http_get2 url params n).

Lemma retry_loop_scrub url params max_retries remaining :
  ∀ attempt_no w1 w2,
    scrub_world w1 = scrub_world w2 →
    result_map (fmap scrub_response)
      (retry_loop http_get1 remaining attempt_no url params max_retries w1).1
    = result_map (fmap scrub_response)
        (retry_loop http_get2 remaining attempt_no url params max_retries w2).1
    ∧ scrub_world
        (retry_loop http_get1 remaining attempt_no url params max_retries w1).2
      = scrub_world
          (retry_loop http_get2 remaining attempt_no url params max_retries w2).2.
Proof.
  induction remaining as [|remaining IH]; intros attempt_no w1 w2 Hw.
  - simpl. split; [reflexivity|assumption].
  - pose proof Hw as Hw'. unfold scrub_world in Hw'.
    injection Hw' as Hredis Hsession Hrequests Hslept.
    simpl. rewrite Hrequests.
    pose proof (upstreams_agree url params (requests w2)) as Hup.
    destruct (http_get1 url params (requests w2)) as [d1| |];
      destruct (http_get2 url params (requests w2)) as [d2| |];
      try discriminate Hup; simpl.
    + injection Hup as Hd. rewrite Hd. split; [reflexivity|].
      unfold scrub_world; simpl. congruence.
    + destruct (Z.ltb attempt_no (max_retries - 1)).
      * destruct (RETRY_BACKOFF_SECONDS !! Z.to_nat attempt_no) as [backoff|].
        -- apply IH. unfold scrub_world; simpl. congruence.
        -- simpl. split; [reflexivity|]. unfold scrub_world; simpl. congruence.
      * simpl. split; [reflexivity|]. unfold scrub_world; simpl. congruence.
    + split; [reflexivity|]. unfold scrub_world; simpl. congruence.
Qed.

Lemma fetch_with_retry_scrub url params max_retries w1 w2 :
  scrub_world w1 = scrub_world w2 →
  result_map (fmap scrub_response)
    (_fetch_with_retry http_get1 url params max_retries w1).1
  = result_map (fmap scrub_response)
      (_fetch_with_retry http_get2 url params max_retries w2).1.
Proof.
  intros Hw. unfold _fetch_with_retry.
  assert (session w1 = session w2) as ->.
  { unfold scrub_world in Hw. congruence. }
  destruct (session w2); [|reflexivity].
  apply retry_loop_scrub; assumption.
Qed.

Lemma get_from_cache_scrub key w1 w2 :
  scrub_world w1 = scrub_world w2 →
  ∃ o1 o2, _get_from_cache key w1 = (Ok o1, w1)
           ∧ _get_from_cache key w2 = (Ok o2, w2)
           ∧ scrub_records <$> o1 = scrub_records <$> o2.
Proof.
  intros Hw. unfold scrub_world in Hw.
  injection Hw as Hredis _ _ _. unfold _get_from_cache.
  destruct (redis_client w1) as [s1|], (redis_client w2) as [s2|];
    try discriminate Hredis.
  - do 2 eexists. split; [reflexivity|]. split; [reflexivity|].
    injection Hredis as Hs.
    apply (f_equal (fun m => m !! key)) in Hs.
    unfold scrub_store in Hs. rewrite !lookup_fmap in Hs.
    destruct (s1 !! key) as [[??]|], (s2 !! key) as [[??]|];
      simpl in *; congruence.
  - exists None, None. repeat split; reflexivity.
Qed.

(** Upstreams and states that agree up to street-level address values
    give the same returned transactions (or the same exception). *)
Lemma fetch_dvf_scrub code_postal code_commune date_min date_max type_local
    limit w1 w2 :
  include_exact_addresses gdpr_config = false →
  scrub_world w1 = scrub_world w2 →
  (fetch_dvf_transactions urlencode md5_hexdigest strftime_ymd fromisoformat
     float_of_str validate_str validate_float validate_int http_get1
     gdpr_config code_postal code_commune date_min date_max type_local
     limit w1).1
  = (fetch_dvf_transactions urlencode md5_hexdigest strftime_ymd fromisoformat
       float_of_str validate_str validate_float validate_int http_get2
       gdpr_config code_postal code_commune date_min date_max type_local
       limit w2).1.
Proof.
  intros Hcfg Hw. rewrite !fetch_dvf_run. cbv zeta.
  set (params := dvf_params strftime_ymd code_postal code_commune date_min
                   date_max type_local limit).
  destruct (get_from_cache_scrub (cache_key "dvf" params) w1 w2 Hw)
    as (o1 & o2 & -> & -> & Ho).
  destruct o1 as [r1|], o2 as [r2|]; try discriminate Ho; simpl.
  - injection Ho as Ho.
    rewrite <- (dvf_of_records_scrub r1), <- (dvf_of_records_scrub r2), Ho
      by assumption.
    reflexivity.
  - pose proof (fetch_with_retry_scrub DVF_BASE_URL params MAX_RETRIES w1 w2 Hw)
      as Hr.
    destruct (_fetch_with_retry http_get1 _ _ _ w1) as [[resp1|e1] w1'];
      destruct (_fetch_with_retry http_get2 _ _ _ w2) as [[resp2|e2] w2'];
      simpl in Hr; try discriminate Hr; [|simpl; congruence].
    injection Hr as Hr.
    assert (scrub_records <$> (resp1 ≫= (.!! "records"))
            = scrub_records <$> (resp2 ≫= (.!! "records"))) as Hrec.
    { destruct resp1 as [d1|], resp2 as [d2|]; try discriminate Hr;
        [|reflexivity].
      injection Hr as Hd. simpl.
      apply (f_equal (fun m => m !! "records")) in Hd.
      unfold scrub_response in Hd. rewrite !lookup_alter_eq in Hd. exact Hd. }
    destruct (resp1 ≫= (.!! "records")) as [r1|],
             (resp2 ≫= (.!! "records")) as [r2|];
      try discriminate Hrec; [|reflexivity].
    injection Hrec as Hrec. simpl.
    rewrite <- (dvf_of_records_scrub r1), <- (dvf_of_records_scrub r2), Hrec
      by assumption.
    reflexivity.
Qed.

End TwoUpstreams.

(** C9: with exact addresses excluded, every transaction a fetch returns
    has no value in [adresse_numero] and [adresse_nom_voie]; and two
    fetches whose upstream bodies and cached lists agree once the
    street-level address values are erased return the same thing. *)
Theorem returned_transactions_anonymous
    code_postal code_commune date_min date_max type_local limit :
  include_exact_addresses gdpr_config = false →
  (∀ http_get w transactions,
     (fetch_dvf_transactions urlencode md5_hexdigest strftime_ymd fromisoformat
        float_of_str validate_str validate_float validate_int http_get
        gdpr_config code_postal code_commune date_min date_max type_local
        limit w).1 = Ok transactions →
     Forall anonymous transactions)
  ∧ (∀ http_get1 http_get2 w1 w2,
       (∀ url params n,
          scrub_attempt (http_get1 url params n)
          = scrub_attempt (http_get2 url params n)) →
       scrub_world w1 = scrub_world w2 →
       (fetch_dvf_transactions urlencode md5_hexdigest strftime_ymd
          fromisoformat float_of_str validate_str validate_float validate_int
          http_get1 gdpr_config code_postal code_commune date_min date_max
          type_local limit w1).1
       = (fetch_dvf_transactions urlencode md5_hexdigest strftime_ymd
            fromisoformat float_of_str validate_str validate_float
            validate_int http_get2 gdpr_config code_postal code_commune
            date_min date_max type_local limit w2).1).
Proof.
  intros Hcfg. split.
  - intros http_get w transactions Hfetch.
    destruct (fetch_dvf_origin _ _ _ _ _ _ _ _ _ Hfetch) as [->|[records Hr]].
    + constructor.
    + eapply dvf_of_records_anonymous; eassumption.
  - intros http_get1 http_get2 w1 w2 Hup Hw.
    apply fetch_dvf_scrub; assumption.
Qed.

End Properties.

(** ** Concrete runs *)

(** C3, counterexample: with exact addresses excluded, a fetch on an
    empty cache returns a transaction without street-level fields and
    leaves in the cache a record that has both. *)
Lemma cache_keeps_street_address :
  include_exact_addresses default_gdpr_config = false
  ∧ street_of <$> Sample.returned (Sample.run_fetch "12").1 = [(None, None)]
  ∧ cached_street_fields (Sample.run_fetch "12").2 (Sample.dvf_key "75015" 100)
    = Some [(Some (JStr "12"), Some (JStr "RUE DE VAUGIRARD"))].
Proof. repeat split; vm_compute; reflexivity. Qed.

(** Witness for C3: that same fetch. *)
Lemma cache_holds_records_as_received_witness :
  ∃ transactions w2,
    Sample.run_fetch "12" = (Ok transactions, w2)
    ∧ Forall anonymous transactions
    ∧ redis_client w2
      = Some {[ Sample.dvf_key "75015" 100
                := (CACHE_TTL_DVF, JList (Sample.one_record "12")) ]}.
Proof.
  destruct (cache_holds_records_as_received Sample.urlencode
              Sample.md5_hexdigest Sample.strftime_ymd Sample.fromisoformat
              Sample.float_of_str Sample.validate_str Sample.validate_float
              Sample.validate_int default_gdpr_config
              (Sample.serving (Sample.one_record "12"))
              (Some "75015") None None None None 100 Sample.fresh ∅ eq_refl)
    as [Hmiss _].
  destruct (Hmiss (Sample.dvf_response (Sample.one_record "12"))
              {| redis_client := Some ∅; session := true;
                 requests := 1; slept := [] |}
              (JList (Sample.one_record "12")))
    as (w2 & Hrun & Hcache).
  - reflexivity.
  - reflexivity.
  - reflexivity.
  - eexists _, w2. split; [exact Hrun|]. split; [|exact Hcache].
    repeat constructor.
Defined.



(** Witness for C9: upstreams that differ in
    the street number only. *)
Lemma returned_transactions_anonymous_witness :
  Forall anonymous (Sample.returned (Sample.run_fetch "12").1)
  ∧ (Sample.run_fetch "12").1 = (Sample.run_fetch "14 bis").1.
Proof.
  destruct (returned_transactions_anonymous Sample.urlencode
              Sample.md5_hexdigest Sample.strftime_ymd Sample.fromisoformat
              Sample.float_of_str Sample.validate_str Sample.validate_float
              Sample.validate_int default_gdpr_config
              (Some "75015") None None None None 100 eq_refl)
    as [Hanon Hsame].
  split.
  - apply (Hanon (Sample.serving (Sample.one_record "12")) Sample.fresh).
    vm_compute; reflexivity.
  - apply (Hsame (Sample.serving (Sample.one_record "12"))
             (Sample.serving (Sample.one_record "14 bis")) Sample.fresh Sample.fresh).
    + intros url params n. vm_compute; reflexivity.
    + reflexivity.
Defined.

End FetcherProperties.

(** * Properties of the join *)

Module JoinProperties.

Import Fetcher.

(** ** The lookup key *)

Lemma app_cons c s t : String c s +:+ t = String c (s +:+ t).
Proof. reflexivity. Qed.

Lemma app_nil t : "" +:+ t = t.
Proof. reflexivity. Qed.

Lemma has_underscore_sep a b : has_underscore (a +:+ String "_" b) = true.
Proof.
  induction a as [|c a IH]; [reflexivity|].
  rewrite app_cons. simpl. rewrite IH. apply orb_true_r.
Qed.

(** A key splits in one way only at its last underscore. *)
Lemma key_split p1 : ∀ p2 s1 s2,
  has_underscore s1 = false → has_underscore s2 = false →
  p1 +:+ String "_" s1 = p2 +:+ String "_" s2 → p1 = p2 ∧ s1 = s2.
Proof.
  induction p1 as [|c1 p1 IH]; intros [|c2 p2] s1 s2 H1 H2 Heq.
  - injection Heq as ->. split; reflexivity.
  - injection Heq as <- ->.
    rewrite has_underscore_sep in H1. discriminate.
  - injection Heq as -> <-.
    rewrite has_underscore_sep in H2. discriminate.
  - injection Heq as -> Heq.
    destruct (IH _ _ _ H1 H2 Heq) as [-> ->]. split; reflexivity.
Qed.

Lemma digits_no_underscore u :
  has_underscore (NilEmpty.string_of_uint u) = false.
Proof. induction u; simpl; assumption || reflexivity. Qed.

Lemma str_of_int_no_underscore n : has_underscore (str_of_int n) = false.
Proof.
  unfold str_of_int, NilZero.string_of_int, NilZero.string_of_uint.
  destruct (Z.to_int n) as [u|u]; destruct u; simpl;
    try reflexivity; try apply digits_no_underscore.
Qed.

Lemma to_int_not_nil n : Z.to_int n ≠ Decimal.Pos Decimal.Nil
                         ∧ Z.to_int n ≠ Decimal.Neg Decimal.Nil.
Proof.
  split; intros H;
    assert (n = 0) as ->
      by (apply (f_equal Z.of_int) in H; rewrite DecimalZ.of_to in H; exact H);
    vm_compute in H; discriminate H.
Qed.

Lemma str_of_int_inj a b : str_of_int a = str_of_int b → a = b.
Proof.
  unfold str_of_int. intros H.
  destruct (to_int_not_nil a) as [Ha1 Ha2], (to_int_not_nil b) as [Hb1 Hb2].
  pose proof (NilZero.isi _ Ha1 Ha2) as Ia.
  pose proof (NilZero.isi _ Hb1 Hb2) as Ib.
  rewrite H, Ib in Ia. injection Ia as Ia.
  apply DecimalZ.to_int_inj. symmetry. exact Ia.
Qed.

(** Two keys are equal exactly when postal code and band are. *)
Lemma surface_key_eq p1 s1 p2 s2 :
  surface_key p1 s1 = surface_key p2 s2
  ↔ p1 = p2 ∧ surface_band s1 = surface_band s2.
Proof.
  unfold surface_key. split.
  - intros H.
    change (p1 +:+ String "_" (str_of_int (surface_band s1))
            = p2 +:+ String "_" (str_of_int (surface_band s2))) in H.
    apply key_split in H as [-> H];
      try apply str_of_int_no_underscore.
    split; [reflexivity|]. apply str_of_int_inj. exact H.
  - intros [-> ->]. reflexivity.
Qed.

(** ** The dictionary of diagnostics *)

Lemma dpe_map_fold key diagnostics : ∀ dpe_map : gmap string (list DPEDiagnostic),
  default []
    (fold_left
       (fun dpe_map dpe =>
          let key := surface_key (dpe_code_postal dpe) (surface_habitable dpe) in
          <[key := default [] (dpe_map !! key) ++ [dpe]]> dpe_map)
       diagnostics dpe_map !! key)
  = default [] (dpe_map !! key)
    ++ List.filter
         (fun d => String.eqb
                     (surface_key (dpe_code_postal d) (surface_habitable d)) key)
         diagnostics.
Proof.
  induction diagnostics as [|d ds IH]; intros dpe_map; simpl.
  - rewrite app_nil_r. reflexivity.
  - rewrite IH.
    destruct (String.eqb_spec
                (surface_key (dpe_code_postal d) (surface_habitable d)) key)
      as [->|Hne].
    + rewrite lookup_insert_eq. simpl. rewrite <- app_assoc. reflexivity.
    + rewrite lookup_insert_ne by assumption. reflexivity.
Qed.

(** The list found under the key of a transaction holds, in order of
    arrival, the diagnostics of the same postal code and band. *)
Lemma dpe_map_lookup diagnostics txn surface d :
  d ∈ default []
        (build_dpe_map diagnostics !! surface_key (code_postal txn) surface)
  ↔ d ∈ diagnostics ∧ matches txn surface d.
Proof.
  unfold build_dpe_map. rewrite dpe_map_fold, lookup_empty. simpl.
  rewrite !list_elem_of_In, filter_In, <- list_elem_of_In.
  unfold matches.
  destruct (String.eqb_spec
              (surface_key (dpe_code_postal d) (surface_habitable d))
              (surface_key (code_postal txn) surface)) as [Heq|Hne].
  - apply surface_key_eq in Heq as [Hp Hb].
    split; intros [Hd _]; repeat split; auto.
  - rewrite surface_key_eq in Hne.
    split; [intros [_ [=]]|intros [_ [Hp Hb]]].
    exfalso. apply Hne. split; symmetry; assumption.
Qed.

(** ** The most recent diagnostic *)

(** [later_dpe a b]: [b] was issued strictly after [a]. *)

Ltac dt_cases :=
  unfold later_dpe, datetime_leb, datetime_ltb in *;
  repeat match goal with
         | H : context [Z.eqb ?a ?b] |- _ => destruct (Z.eqb_spec a b)
         | |- context [Z.eqb ?a ?b] => destruct (Z.eqb_spec a b)
         | H : context [Z.ltb ?a ?b] |- _ => destruct (Z.ltb_spec a b)
         | |- context [Z.ltb ?a ?b] => destruct (Z.ltb_spec a b)
         end;
  simpl in *; try discriminate; try reflexivity; try lia.

Lemma not_after_refl a : not_after a a.
Proof. unfold not_after. dt_cases. Qed.

Lemma not_after_later a b c :
  not_after a b → later_dpe b c = true → not_after a c.
Proof. unfold not_after. intros H1 H2. dt_cases. Qed.

Lemma not_later_not_after a b : later_dpe b a = false → not_after a b.
Proof. unfold not_after. intros H. dt_cases. Qed.

(** While scanning, the current best is in the list and no element seen
    so far was issued after it. *)
Lemma max_from_spec others : ∀ best seen,
  best ∈ seen → (∀ d, d ∈ seen → not_after d best) →
  max_from later_dpe best others ∈ seen ++ others
  ∧ ∀ d, d ∈ seen ++ others → not_after d (max_from later_dpe best others).
Proof.
  induction others as [|x others IH]; intros best seen Hin Hmax; simpl.
  - rewrite app_nil_r. split; assumption.
  - replace (seen ++ x :: others) with ((seen ++ [x]) ++ others)
      by (rewrite <- app_assoc; reflexivity).
    apply IH.
    + apply elem_of_app.
      destruct (later_dpe best x); [right; left|left; assumption].
    + intros d [Hd| ->%list_elem_of_singleton]%elem_of_app.
      * destruct (later_dpe best x) eqn:Hlt; [|auto].
        eapply not_after_later; [apply Hmax; exact Hd|exact Hlt].
      * destruct (later_dpe best x) eqn:Hlt; [apply not_after_refl|].
        apply not_later_not_after. exact Hlt.
Qed.

Lemma max_from_most_recent first others :
  max_from later_dpe first others ∈ first :: others
  ∧ ∀ d, d ∈ first :: others → not_after d (max_from later_dpe first others).
Proof.
  apply (max_from_spec others first [first]).
  - left.
  - intros d ->%list_elem_of_singleton. apply not_after_refl.
Qed.

(** ** The entries *)

Lemma enrich_one_spec diagnostics txn :
  match surface_reelle_bati txn with
  | Some surface =>
      if Q_truthy surface
      then ∃ e, enrich_one (build_dpe_map diagnostics) txn = [e]
                ∧ transaction e = txn
                ∧ entry_sound diagnostics e surface
      else enrich_one (build_dpe_map diagnostics) txn = []
  | None => enrich_one (build_dpe_map diagnostics) txn = []
  end.
Proof.
  unfold enrich_one.
  destruct (surface_reelle_bati txn) as [surface|]; [|reflexivity].
  destruct (Q_truthy surface); [|reflexivity]. simpl.
  pose proof (fun d => dpe_map_lookup diagnostics txn surface d) as Hlookup.
  destruct (default [] (build_dpe_map diagnostics
                          !! surface_key (code_postal txn) surface))
    as [|first others].
  - eexists. split; [reflexivity|]. split; [reflexivity|].
    unfold entry_sound; simpl. split; [reflexivity|].
    intros d Hd Hm. apply (elem_of_nil d). apply Hlookup. split; assumption.
  - eexists. split; [reflexivity|]. split; [reflexivity|].
    unfold entry_sound; simpl. split; [reflexivity|].
    destruct (max_from_most_recent first others) as [Hin Hmax].
    apply Hlookup in Hin as [Hin Hm].
    repeat split; try assumption; try apply Hm.
    intros d Hd Hmd. apply Hmax. apply Hlookup. split; assumption.
Qed.

(** Every entry carries a transaction that passed the surface test. *)
Lemma enrich_entries transactions diagnostics e :
  e ∈ enrich transactions diagnostics →
  transaction e ∈ transactions
  ∧ has_surface (transaction e) = true
  ∧ (confidence e = "medium" ∨ confidence e = "none").
Proof.
  unfold enrich. intros (txn & He & Htxn)%list_elem_of_bind.
  pose proof (enrich_one_spec diagnostics txn) as Hspec.
  unfold has_surface.
  destruct (surface_reelle_bati txn) as [surface|] eqn:Hs;
    [destruct (Q_truthy surface) eqn:Ht|].
  - destruct Hspec as (e' & Hone & <- & Hsound).
    rewrite Hone in He. apply list_elem_of_singleton in He as ->.
    rewrite Hs, Ht. split; [assumption|]. split; [reflexivity|].
    unfold entry_sound in Hsound. destruct (dpe e'); [left|right]; apply Hsound.
  - rewrite Hspec in He. inversion He.
  - rewrite Hspec in He. inversion He.
Qed.



Section CrossReference.

Variable urlencode : list (string * param) → string.
Variable md5_hexdigest : string → string.
Variable strftime_ymd : datetime → string.
Variable fromisoformat : string → option datetime.
Variable float_of_str : string → option Q.
Variable validate_str : json → option string.
Variable validate_float : json → option Q.
Variable validate_int : json → option Z.
Variable minus_days : datetime → Z → datetime.
Variable http_get : string → list (string * param) → nat → attempt.
Variable gdpr_config : GDPRConfig.
Variable now : datetime.

Let reconcile :=
  cross_reference_dvf_dpe urlencode md5_hexdigest strftime_ymd fromisoformat
    float_of_str validate_str validate_float validate_int minus_days http_get
    gdpr_config now.




End CrossReference.

(** ** Concrete runs *)





End JoinProperties.

(** * Further properties of the recalculation engine *)

Module CalculatorExtras.

Import Calculator CalculatorNotions.

(** ** The weighted conversion *)

Lemma others_sum_zero others :
  Forall (fun item : string * Q => (item.2 == 0)%Q) others →
  (others_sum others == 0)%Q.
Proof.
  induction 1 as [|[source percentage] others Hz _ IH]; simpl.
  - reflexivity.
  - simpl in Hz. rewrite Hz, IH. ring.
Qed.

(** X1: for a dwelling that is all electric (share 1, every other share
    0) the recalculated primary energy is the total final energy times
    1.9. *)
Theorem all_electric_identity consumption other_energy_sources :
  Forall (fun item : string * Q => (item.2 == 0)%Q) other_energy_sources →
  (recalculate_with_2026_factor consumption 1 other_energy_sources
   == total_final_energy consumption * (19 # 10))%Q.
Proof.
  intros Hz. unfold recalculate_with_2026_factor.
  rewrite CalculatorProperties.weighted_factor_sum, (others_sum_zero _ Hz).
  unfold ELECTRICITY_FACTOR_2026. ring.
Qed.

Lemma all_electric_identity_witness :
  (recalculate_with_2026_factor Sample.consumption 1
     [("gas", 0%Q); ("wood", 0%Q)] == 270 * (19 # 10))%Q.
Proof.
  apply (all_electric_identity Sample.consumption [("gas", 0%Q); ("wood", 0%Q)]).
  repeat constructor.
Defined.




(** ** Classification *)

Lemma Qle_bool_inject a b : Qle_bool (inject_Z a) (inject_Z b) = Z.leb a b.
Proof. unfold Qle_bool, inject_Z. simpl. f_equal; lia. Qed.

(** X3: on integer readings from 0 upwards the table is a partition by
    the upper edges 70, 110, 180, 250, 330, 420, and a larger reading
    never gets a better class. *)
Theorem classify_integers (n m : Z) :
  0 ≤ n → n ≤ m →
  classify_energy_performance (inject_Z n) = class_of_integer n
  ∧ rank (classify_energy_performance (inject_Z n))
    ≤ rank (classify_energy_performance (inject_Z m)).
Proof.
  intros Hn Hm. split.
  - rewrite CalculatorProperties.classify_unfold. unfold class_of_integer.
    change 0%Q with (inject_Z 0). change 70%Q with (inject_Z 70).
    change 71%Q with (inject_Z 71). change 110%Q with (inject_Z 110).
    change 111%Q with (inject_Z 111). change 180%Q with (inject_Z 180).
    change 181%Q with (inject_Z 181). change 250%Q with (inject_Z 250).
    change 251%Q with (inject_Z 251). change 330%Q with (inject_Z 330).
    change 331%Q with (inject_Z 331). change 420%Q with (inject_Z 420).
    rewrite !Qle_bool_inject.
    destruct (Z.leb_spec 0 n); [|lia].
    destruct (Z.leb_spec n 70); [reflexivity|].
    destruct (Z.leb_spec 71 n); [|lia].
    destruct (Z.leb_spec n 110); [reflexivity|].
    destruct (Z.leb_spec 111 n); [|lia].
    destruct (Z.leb_spec n 180); [reflexivity|].
    destruct (Z.leb_spec 181 n); [|lia].
    destruct (Z.leb_spec n 250); [reflexivity|].
    destruct (Z.leb_spec 251 n); [|lia].
    destruct (Z.leb_spec n 330); [reflexivity|].
    destruct (Z.leb_spec 331 n); [|lia].
    destruct (Z.leb_spec n 420); reflexivity.
  - apply CalculatorProperties.classify_monotone_covered.
    + apply CalculatorProperties.covered_integer. exact Hn.
    + rewrite <- Zle_Qle. exact Hm.
Qed.

Lemma classify_integers_witness :
  classify_energy_performance (inject_Z 250) = D
  ∧ rank (classify_energy_performance (inject_Z 250))
    ≤ rank (classify_energy_performance (inject_Z 251)).
Proof. apply (classify_integers 250 251); lia. Defined.

(** X4: a negative primary energy matches no interval and is classed G,
    a passoire thermique; so is any value above 420 that is not below
    421. *)
Theorem classify_outside_table v :
  (v < 0)%Q ∨ (420 < v)%Q →
  classify_energy_performance v = G.
Proof.
  intros Hv. rewrite CalculatorProperties.classify_unfold.
  repeat match goal with
         | |- context [if ?a && ?b then _ else _] =>
             let E := fresh "E" in
             destruct (a && b) eqn:E;
             [apply andb_true_iff in E as [?%Qle_bool_iff ?%Qle_bool_iff];
              exfalso; destruct Hv; lra|]
         end.
  reflexivity.
Qed.

Lemma classify_outside_table_witness :
  classify_energy_performance (-1) = G.
Proof. apply classify_outside_table. left. reflexivity. Defined.

(** ** Regulatory status *)

(** X5: in every result the regulatory fields agree with one another:
    the passoire flag marks classes F and G; the urgency is critical,
    urgent or warning exactly when the ban date is 2025, 2028 or 2034 and
    compliant exactly when there is none; human verification is required
    exactly for the rentals that are passoires. *)
Theorem regulatory_fields_agree
    enable_ai_transparency now original_dpe_class c original_energy
    consumption electricity_percentage other_energy_sources surface_m2
    is_rental_property :
  DPEClassification_of_string original_dpe_class = Ok c →
  ∃ r, calculate_full_dpe_2026 enable_ai_transparency now original_dpe_class
         original_energy consumption electricity_percentage
         other_energy_sources surface_m2 is_rental_property = Ok r
       ∧ (is_passoire_thermique r = true
          ↔ recalculated_classification r = F
            ∨ recalculated_classification r = G)
       ∧ human_verification_required r
         = is_rental_property && is_passoire_thermique r
       ∧ rental_ban_date r
         = match renovation_urgency r with
           | CRITICAL => Some (datetime_ymd 2025 1 1)
           | URGENT => Some (datetime_ymd 2028 1 1)
           | WARNING => Some (datetime_ymd 2034 1 1)
           | COMPLIANT => None
           end
       ∧ (renovation_urgency r = COMPLIANT
          ↔ is_rental_property = false
            ∨ rank (recalculated_classification r) ≤ 3).
Proof.
  intros Hc. unfold calculate_full_dpe_2026. rewrite Hc.
  eexists. split; [reflexivity|].
  cbn [is_passoire_thermique recalculated_classification
       human_verification_required rental_ban_date renovation_urgency].
  generalize (classify_energy_performance
                (recalculate_with_2026_factor consumption
                   electricity_percentage other_energy_sources)).
  intros k.
  destruct is_rental_property, k; cbn;
    (split; [split; [intros; try discriminate; auto
                    |intros [|]; try discriminate; reflexivity]|]);
    (split; [reflexivity|]); (split; [reflexivity|]);
    (split; [intros; try discriminate; try (left; reflexivity); right; lia
            |intros [|]; try discriminate; try reflexivity; lia]).
Qed.

Lemma regulatory_fields_agree_witness :
  ∃ r, calculate_full_dpe_2026 true Sample.now "F" 621 Sample.consumption
         (95 # 100) [("gas", (5 # 100)%Q)] 65 true = Ok r
       ∧ human_verification_required r
         = true && is_passoire_thermique r.
Proof.
  destruct (regulatory_fields_agree true Sample.now "F" F 621
              Sample.consumption (95 # 100) [("gas", (5 # 100)%Q)] 65 true
              eq_refl) as (r & Hr & _ & Hh & _).
  exists r. split; assumption.
Defined.

(** ** Renovation advice *)

(** X6: the list of priorities has between one and five actions; it ends
    with the renewable-energy action unless heating exceeds 150, hot
    water exceeds 50 and the class is F or G all at once, in which case
    the cut to five drops that action. *)
Theorem priorities_cut_to_five classification consumption :
  let priorities := generate_renovation_priorities classification consumption in
  let full :=
    exceeds (heating_kwh consumption) 150
    && exceeds (hot_water_kwh consumption) 50
    && (DPEClassification_eqb classification F
        || DPEClassification_eqb classification G) in
  (1 ≤ length priorities ≤ 5)%nat
  ∧ (if full
     then length priorities = 5%nat ∧ solar_action ∉ priorities
     else last priorities = Some solar_action).
Proof.
  unfold generate_renovation_priorities, exceeds. cbv zeta.
  destruct (Qlt_le_dec 150 (heating_kwh consumption)) as [Hh|Hh];
    destruct (Qlt_le_dec 50 (hot_water_kwh consumption)) as [Hw|Hw];
    destruct classification; cbn; (split; [lia|]); try reflexivity.
  all: split; [reflexivity|].
  all: unfold solar_action; intros Hin;
    repeat (apply elem_of_cons in Hin as [Hin|Hin]; [discriminate Hin|]);
    inversion Hin.
Qed.

(** X7: the renovation cost range is (0, 0) for classes A to D whatever
    the surface; for a non-negative surface its bounds are non-negative
    and the lower one does not exceed the upper one. *)
Theorem renovation_costs_ordered classification surface_m2 :
  (rank classification ≤ 3 →
   estimate_renovation_costs classification surface_m2 = (0, 0))
  ∧ ((0 <= surface_m2)%Q →
     0 ≤ (estimate_renovation_costs classification surface_m2).1
     ∧ (estimate_renovation_costs classification surface_m2).1
       ≤ (estimate_renovation_costs classification surface_m2).2).
Proof.
  assert (Hint : ∀ x : Q, (0 <= x)%Q → py_int x = Qfloor x).
  { intros [n d] Hx. unfold py_int, Qfloor. unfold Qle in Hx. simpl in *.
    apply Z.quot_div_nonneg; lia. }
  split.
  - destruct classification; simpl; intros; try reflexivity; lia.
  - intros Hs.
    assert (Hmono : ∀ a b : Q, (0 <= a)%Q → (a <= b)%Q →
                    0 ≤ py_int (a * surface_m2)
                    ∧ py_int (a * surface_m2) ≤ py_int (b * surface_m2)).
    { intros a b Ha Hab.
      assert (0 <= a * surface_m2)%Q by (apply Qmult_le_0_compat; assumption).
      assert (a * surface_m2 <= b * surface_m2)%Q
        by (apply Qmult_le_compat_r; assumption).
      rewrite !Hint by lra. split.
      - change 0 with (Qfloor 0). apply Qfloor_resp_le. assumption.
      - apply Qfloor_resp_le. assumption. }
    destruct classification; simpl; try lia; apply Hmono; reflexivity || discriminate.
Qed.

Lemma renovation_costs_ordered_witness :
  estimate_renovation_costs C 80 = (0, 0)
  ∧ 0 ≤ (estimate_renovation_costs F (131 # 2)).1
  ∧ (estimate_renovation_costs F (131 # 2)).1
    ≤ (estimate_renovation_costs F (131 # 2)).2.
Proof.
  split.
  - apply (renovation_costs_ordered C 80). simpl. lia.
  - apply (renovation_costs_ordered F (131 # 2)). discriminate.
Defined.

(** ** Energy bill *)





End CalculatorExtras.

(** * Further properties of the fetcher *)

Module FetcherExtras.

Import Fetcher FetcherNotions.

(** ** The cache key *)

#[local] Instance by_name_trans : Transitive by_name.
Proof. intros x y z. unfold by_name. apply transitivity. Qed.

Lemma insert_item_perm x l : insert_item x l ≡ₚ x :: l.
Proof.
  induction l as [|y l IH]; simpl; [reflexivity|].
  destruct (String.leb x.1 y.1); [reflexivity|].
  rewrite IH. apply Permutation_swap.
Qed.

Lemma insert_item_sorted x l : Sorted by_name l → Sorted by_name (insert_item x l).
Proof.
  induction 1 as [|y l Hl IH Hy]; simpl.
  - repeat constructor.
  - destruct (String.leb x.1 y.1) eqn:Hxy.
    + constructor; [constructor; assumption|].
      constructor. unfold by_name, String.le. rewrite Hxy. exact I.
    + assert (by_name y x) as Hyx.
      { unfold by_name, String.le.
        destruct (String.leb_total x.1 y.1) as [H|H]; [congruence|].
        rewrite H. exact I. }
      constructor; [assumption|].
      destruct l as [|z l]; simpl in *.
      * constructor. exact Hyx.
      * destruct (String.leb x.1 z.1); constructor; [exact Hyx|].
        inversion Hy; assumption.
Qed.

Lemma sorted_items_perm l : sorted_items l ≡ₚ l.
Proof.
  induction l as [|x l IH]; simpl; [reflexivity|].
  unfold sorted_items in *. simpl. rewrite insert_item_perm, IH. reflexivity.
Qed.

Lemma sorted_items_sorted l : Sorted by_name (sorted_items l).
Proof.
  induction l as [|x l IH]; simpl; [constructor|].
  apply insert_item_sorted. exact IH.
Qed.

Lemma same_name_same_item (l : list (string * param)) x y :
  NoDup l.*1 → x ∈ l → y ∈ l → x.1 = y.1 → x = y.
Proof.
  induction l as [|z l IH]; intros Hnd Hx Hy Hxy; [inversion Hx|].
  rewrite fmap_cons in Hnd. apply NoDup_cons in Hnd as [Hz Hnd].
  apply elem_of_cons in Hx as [->|Hx]; apply elem_of_cons in Hy as [->|Hy].
  - reflexivity.
  - exfalso. apply Hz. rewrite Hxy. apply list_elem_of_fmap. eauto.
  - exfalso. apply Hz. rewrite <- Hxy. apply list_elem_of_fmap. eauto.
  - apply IH; assumption.
Qed.

Section Key.

Variable urlencode : list (string * param) → string.
Variable md5_hexdigest : string → string.

(** X9: two parameter dictionaries with the same entries, built in
    different orders, get the same cache key. *)
Theorem cache_key_ignores_insertion_order prefix params params' :
  NoDup params.*1 → params ≡ₚ params' →
  _generate_cache_key urlencode md5_hexdigest prefix params
  = _generate_cache_key urlencode md5_hexdigest prefix params'.
Proof.
  intros Hnd Hp. unfold _generate_cache_key.
  assert (sorted_items params = sorted_items params') as ->; [|reflexivity].
  apply (Sorted_unique_strong by_name).
  - intros x y Hx Hy Hxy Hyx.
    apply (same_name_same_item params); try assumption.
    + rewrite <- (sorted_items_perm params). exact Hx.
    + rewrite Hp, <- (sorted_items_perm params'). exact Hy.
    + apply (anti_symm String.le); assumption.
  - apply sorted_items_sorted.
  - apply sorted_items_sorted.
  - rewrite !sorted_items_perm. exact Hp.
Qed.


End Key.

Lemma cache_key_ignores_insertion_order_witness :
  _generate_cache_key Sample.urlencode Sample.md5_hexdigest "dvf"
    [("limit", PInt 100); ("where", PStr "code_postal='75015'")]
  = _generate_cache_key Sample.urlencode Sample.md5_hexdigest "dvf"
      [("where", PStr "code_postal='75015'"); ("limit", PInt 100)].
Proof.
  apply (cache_key_ignores_insertion_order Sample.urlencode
           Sample.md5_hexdigest "dvf"
           [("limit", PInt 100); ("where", PStr "code_postal='75015'")]
           [("where", PStr "code_postal='75015'"); ("limit", PInt 100)]).
  - apply NoDup_cons_2; [|apply NoDup_singleton].
    intros H%list_elem_of_singleton. discriminate H.
  - apply Permutation_swap.
Defined.

(** ** The retry loop *)

Section Retry.

Variable http_get : string → list (string * param) → nat → attempt.

(** X10: a call with the default bound issues at most three requests,
    sleeps 1 second after a first failure and 3 after a second one (the
    third delay of the schedule, 9, is never used), leaves cache and
    session untouched and never fails on the backoff table. *)
Theorem retry_budget url params w :
  session w = true →
  let run := _fetch_with_retry http_get url params MAX_RETRIES w in
  (requests w < requests run.2 ≤ requests w + 3)%nat
  ∧ (slept run.2 = slept w ∨ slept run.2 = 1 :: slept w
     ∨ slept run.2 = 3 :: 1 :: slept w)
  ∧ redis_client run.2 = redis_client w
  ∧ session run.2 = true
  ∧ run.1 ≠ Raise IndexError ∧ run.1 ≠ Raise RuntimeError.
Proof.
  intros Hs. unfold _fetch_with_retry. rewrite Hs. simpl.
  destruct (http_get url params (requests w)); simpl;
    [repeat split; auto; (lia || discriminate)| |
     repeat split; auto; (lia || discriminate)].
  destruct (http_get url params (S (requests w))); simpl;
    [repeat split; auto; (lia || discriminate)| |
     repeat split; auto; (lia || discriminate)].
  destruct (http_get url params (S (S (requests w)))); simpl;
    repeat split; auto; (lia || discriminate).
Qed.

(** X11: when the first [k] attempts (k at most 2) fail with a client
    error and the next one is answered, the call returns that answer
    after [k + 1] requests. *)
Theorem retry_recovers url params w (k : nat) data :
  session w = true → (k ≤ 2)%nat →
  (∀ i, (i < k)%nat → http_get url params (requests w + i)%nat = ClientError) →
  http_get url params (requests w + k)%nat = Responded data →
  let run := _fetch_with_retry http_get url params MAX_RETRIES w in
  run.1 = Ok (Some data) ∧ requests run.2 = (requests w + k + 1)%nat.
Proof.
  intros Hs Hk Hfail Hok. unfold _fetch_with_retry. rewrite Hs.
  destruct k as [|[|[|k]]]; [| | |lia].
  - rewrite Nat.add_0_r in Hok. simpl. rewrite Hok. simpl. split; [reflexivity|lia].
  - pose proof (Hfail 0%nat ltac:(lia)) as H0. rewrite Nat.add_0_r in H0.
    rewrite Nat.add_1_r in Hok.
    simpl. rewrite H0. simpl. rewrite Hok. simpl. split; [reflexivity|lia].
  - pose proof (Hfail 0%nat ltac:(lia)) as H0. rewrite Nat.add_0_r in H0.
    pose proof (Hfail 1%nat ltac:(lia)) as H1. rewrite Nat.add_1_r in H1.
    replace (requests w + 2)%nat with (S (S (requests w))) in Hok by lia.
    simpl. rewrite H0. simpl. rewrite H1. simpl. rewrite Hok. simpl.
    split; [reflexivity|lia].
Qed.

(** X12: with a bound of five attempts or more, four client errors in a
    row run past the end of the three-entry backoff table: the call
    raises [IndexError] after the fourth request, having slept 1, 3 and 9
    seconds. *)
Theorem retry_overruns_backoff_table url params max_retries w :
  session w = true → 5 ≤ max_retries →
  (∀ i, (i < 4)%nat → http_get url params (requests w + i)%nat = ClientError) →
  let run := _fetch_with_retry http_get url params max_retries w in
  run.1 = Raise IndexError
  ∧ requests run.2 = (requests w + 4)%nat
  ∧ slept run.2 = 9 :: 3 :: 1 :: slept w.
Proof.
  intros Hs Hmax Hfail. unfold _fetch_with_retry. rewrite Hs.
  pose proof (Hfail 0%nat ltac:(lia)) as H0. rewrite Nat.add_0_r in H0.
  pose proof (Hfail 1%nat ltac:(lia)) as H1. rewrite Nat.add_1_r in H1.
  pose proof (Hfail 2%nat ltac:(lia)) as H2.
  replace (requests w + 2)%nat with (S (S (requests w))) in H2 by lia.
  pose proof (Hfail 3%nat ltac:(lia)) as H3.
  replace (requests w + 3)%nat with (S (S (S (requests w)))) in H3 by lia.
  destruct (Z.to_nat max_retries) as [|[|[|[|n]]]] eqn:Hn; try lia.
  assert (Hlt : ∀ a, a ≤ 3 → Z.ltb a (max_retries - 1) = true)
    by (intros; apply Z.ltb_lt; lia).
  simpl. rewrite H0. simpl. rewrite !Hlt by lia.
  rewrite H1. simpl. rewrite H2. simpl. rewrite H3. simpl.
  repeat split; lia.
Qed.

End Retry.

Lemma retry_budget_witness :
  let run := _fetch_with_retry Sample.flaky DVF_BASE_URL [] MAX_RETRIES
               Sample.fresh in
  (requests run.2 ≤ 3)%nat ∧ run.1 ≠ Raise IndexError.
Proof.
  destruct (retry_budget Sample.flaky DVF_BASE_URL [] Sample.fresh eq_refl)
    as (Hreq & _ & _ & _ & Hidx & _).
  split; [apply Hreq|exact Hidx].
Defined.

Lemma retry_recovers_witness :
  (_fetch_with_retry
     (fun _ _ n => if Nat.ltb n 2 then ClientError else Responded ∅)
     DVF_BASE_URL [] MAX_RETRIES Sample.fresh).1 = Ok (Some ∅).
Proof.
  apply (retry_recovers
           (fun _ _ n => if Nat.ltb n 2 then ClientError else Responded ∅)
           DVF_BASE_URL [] Sample.fresh 2 ∅).
  - reflexivity.
  - lia.
  - intros [|[|i]] Hi; [reflexivity|reflexivity|lia].
  - reflexivity.
Defined.

Lemma retry_overruns_backoff_table_witness :
  (_fetch_with_retry Sample.down DVF_BASE_URL [] 5 Sample.fresh).1
  = Raise IndexError.
Proof.
  apply (retry_overruns_backoff_table Sample.down DVF_BASE_URL [] 5
           Sample.fresh).
  - reflexivity.
  - lia.
  - intros i _. reflexivity.
Defined.

(** ** The cache *)

Lemma get_from_cache_cached key w : _get_from_cache key w = (Ok (cached w key), w).
Proof. unfold _get_from_cache, cached. destruct (redis_client w); reflexivity. Qed.


Section Shape.

Context {T : Type}.
Variable key url : string.
Variable params : list (string * param).
Variable field : string.
Variable ttl : Z.
Variable parse : json → result (list T).


Lemma cached_after_retry http_get k w :
  cached (_fetch_with_retry http_get url params MAX_RETRIES w).2 k = cached w k.
Proof.
  unfold cached. rewrite FetcherProperties.fetch_with_retry_frame. reflexivity.
Qed.

Lemma session_after_retry http_get w :
  session (_fetch_with_retry http_get url params MAX_RETRIES w).2 = session w.
Proof.
  unfold _fetch_with_retry. destruct (session w) eqn:Hs; [|exact Hs].
  transitivity (session w); [apply FetcherProperties.retry_loop_frame|exact Hs].
Qed.

Lemma cached_after_set k data w :
  cached (_set_to_cache key data ttl w).2 k
  = if decide (k = key)
    then match redis_client w with Some _ => Some data | None => None end
    else cached w k.
Proof.
  unfold cached, _set_to_cache.
  destruct (redis_client w) as [store|] eqn:Hr; simpl.
  - destruct (decide (k = key)) as [->|Hne].
    + rewrite lookup_insert_eq. reflexivity.
    + rewrite lookup_insert_ne by congruence. reflexivity.
  - rewrite Hr. destruct (decide (k = key)); reflexivity.
Qed.

Lemma session_after_set data w :
  session (_set_to_cache key data ttl w).2 = session w.
Proof. unfold _set_to_cache. destruct (redis_client w); reflexivity. Qed.

(** A fetch changes neither the session nor any other cache entry. *)
Lemma cached_fetch_frame http_get w :
  session (cached_fetch http_get key url params field ttl parse w).2 = session w
  ∧ ∀ k, k ≠ key →
      cached (cached_fetch http_get key url params field ttl parse w).2 k
      = cached w k.
Proof.
  unfold cached_fetch. rewrite get_from_cache_cached.
  destruct (cached w key) as [records|]; [split; reflexivity|].
  pose proof (session_after_retry http_get w) as Hs.
  pose proof (fun k => cached_after_retry http_get k w) as Hc.
  destruct (_fetch_with_retry http_get url params MAX_RETRIES w)
    as [[response|e] w1]; simpl in *; [|split; [exact Hs|intros; apply Hc]].
  destruct (response ≫= (.!! field)) as [records|]; simpl;
    [|split; [exact Hs|intros; apply Hc]].
  split; [rewrite session_after_set; exact Hs|].
  intros k Hk. rewrite cached_after_set. rewrite decide_False by assumption.
  apply Hc.
Qed.



(** Once a list has been stored, the same fetch is served from the cache
    whatever the upstream does, and issues no request. *)
Lemma cached_fetch_served http_get http_get' w store response w1 records :
  redis_client w = Some store → store !! key = None →
  _fetch_with_retry http_get url params MAX_RETRIES w = (Ok (Some response), w1) →
  response !! field = Some records →
  let first := cached_fetch http_get key url params field ttl parse w in
  cached_fetch http_get' key url params field ttl parse first.2 = first.
Proof.
  intros Hredis Hmiss Hrun Hrec first.
  assert (first = (parse records, (_set_to_cache key records ttl w1).2)) as ->.
  { unfold first, cached_fetch. rewrite get_from_cache_cached.
    unfold cached. rewrite Hredis. simpl. rewrite Hmiss. simpl.
    rewrite Hrun. simpl. rewrite Hrec. reflexivity. }
  cbn [snd]. unfold cached_fetch.
  rewrite get_from_cache_cached, cached_after_set.
  rewrite decide_True by reflexivity.
  pose proof (FetcherProperties.fetch_with_retry_frame http_get url params
                MAX_RETRIES w) as Hfr.
  rewrite Hrun in Hfr. simpl in Hfr. rewrite Hfr, Hredis. reflexivity.
Qed.

(** What holds of every parsed list and of the empty list holds of every
    list a fetch returns. *)
Lemma cached_fetch_result http_get (P : list T → Prop) w l :
  P [] → (∀ records l', parse records = Ok l' → P l') →
  (cached_fetch http_get key url params field ttl parse w).1 = Ok l → P l.
Proof.
  intros Hnil Hparse. unfold cached_fetch.
  destruct (_get_from_cache key w) as [[[records|]|e] w0]; simpl.
  - apply Hparse.
  - destruct (_fetch_with_retry http_get url params MAX_RETRIES w0)
      as [[response|e] w1]; simpl; [|discriminate].
    destruct (response ≫= (.!! field)) as [records|]; simpl.
    + apply Hparse.
    + intros [= <-]. exact Hnil.
  - discriminate.
Qed.

End Shape.

(** ** The two fetchers and the cache *)

Section Fetchers.

Variable urlencode : list (string * param) → string.
Variable md5_hexdigest : string → string.
Variable strftime_ymd : datetime → string.
Variable fromisoformat : string → option datetime.
Variable float_of_str : string → option Q.
Variable validate_str : json → option string.
Variable validate_float : json → option Q.
Variable validate_int : json → option Z.
Variable minus_days : datetime → Z → datetime.
Variable gdpr_config : GDPRConfig.
Variable now : datetime.

#[local] Abbreviation dvf_key code_postal code_commune date_min date_max
    type_local limit :=
  (_generate_cache_key urlencode md5_hexdigest "dvf"
     (dvf_params strftime_ymd code_postal code_commune date_min date_max
        type_local limit)).
#[local] Abbreviation dpe_key code_postal classe type_batiment date_min limit :=
  (_generate_cache_key urlencode md5_hexdigest "dpe"
     (dpe_params strftime_ymd code_postal classe type_batiment date_min
        limit)).
#[local] Abbreviation fetch_dvf http_get :=
  (fetch_dvf_transactions urlencode md5_hexdigest strftime_ymd fromisoformat
     float_of_str validate_str validate_float validate_int http_get
     gdpr_config).
#[local] Abbreviation fetch_dpe http_get :=
  (fetch_dpe_diagnostics urlencode md5_hexdigest strftime_ymd fromisoformat
     float_of_str validate_str validate_float http_get).
#[local] Abbreviation parse_dvf limit :=
  (fun records =>
     dvf_of_records fromisoformat float_of_str validate_str validate_float
       validate_int gdpr_config records limit).
#[local] Abbreviation parse_dpe limit :=
  (fun results =>
     dpe_of_results fromisoformat float_of_str validate_str validate_float
       results limit).
#[local] Abbreviation reconcile http_get :=
  (cross_reference_dvf_dpe urlencode md5_hexdigest strftime_ymd fromisoformat
     float_of_str validate_str validate_float validate_int minus_days
     http_get gdpr_config now).

Lemma fetch_dvf_shape http_get code_postal code_commune date_min date_max
    type_local limit w :
  fetch_dvf http_get code_postal code_commune date_min date_max type_local
    limit w
  = cached_fetch http_get
      (dvf_key code_postal code_commune date_min date_max type_local limit)
      DVF_BASE_URL
      (dvf_params strftime_ymd code_postal code_commune date_min date_max
         type_local limit)
      "records" CACHE_TTL_DVF (parse_dvf limit) w.
Proof.
  rewrite FetcherProperties.fetch_dvf_run. reflexivity.
Qed.

Lemma fetch_dpe_shape http_get code_postal classe type_batiment date_min
    limit w :
  fetch_dpe http_get code_postal classe type_batiment date_min limit w
  = cached_fetch http_get
      (dpe_key code_postal classe type_batiment date_min limit)
      ADEME_DPE_BASE_URL
      (dpe_params strftime_ymd code_postal classe type_batiment date_min limit)
      "results" CACHE_TTL_DPE (parse_dpe limit) w.
Proof.
  rewrite FetcherProperties.fetch_dpe_run. reflexivity.
Qed.

(** X14: a fetch that finds its list in the cache needs no HTTP session
    and leaves the process as it is; one that misses without a session
    raises [RuntimeError] before any request is made. *)
Theorem fetch_without_session http_get code_postal code_commune date_min
    date_max type_local limit w :
  let key := dvf_key code_postal code_commune date_min date_max type_local
               limit in
  (∀ records, cached w key = Some records →
     fetch_dvf http_get code_postal code_commune date_min date_max
       type_local limit w
     = (dvf_of_records fromisoformat float_of_str validate_str
          validate_float validate_int gdpr_config records limit, w))
  ∧ (cached w key = None → session w = false →
     fetch_dvf http_get code_postal code_commune date_min date_max
       type_local limit w = (Raise RuntimeError, w)).
Proof.
  intros key. split.
  - intros records Hc. rewrite fetch_dvf_shape. unfold cached_fetch.
    rewrite get_from_cache_cached. fold key. rewrite Hc. reflexivity.
  - intros Hc Hs. rewrite fetch_dvf_shape. unfold cached_fetch.
    rewrite get_from_cache_cached. fold key. rewrite Hc.
    unfold _fetch_with_retry. rewrite Hs. reflexivity.
Qed.

(** X15: after a transaction fetch has stored the list it received, the
    same fetch is served from the cache: it returns the same
    transactions and leaves the process unchanged (no request is made),
    whatever the upstream has become. *)
Theorem second_fetch_served_from_cache http_get http_get'
    code_postal code_commune date_min date_max type_local limit
    w store response w1 records :
  let params := dvf_params strftime_ymd code_postal code_commune date_min
                  date_max type_local limit in
  let key := dvf_key code_postal code_commune date_min date_max type_local
               limit in
  redis_client w = Some store → store !! key = None →
  _fetch_with_retry http_get DVF_BASE_URL params MAX_RETRIES w
  = (Ok (Some response), w1) →
  response !! "records" = Some records →
  let first := fetch_dvf http_get code_postal code_commune date_min date_max
                 type_local limit w in
  fetch_dvf http_get' code_postal code_commune date_min date_max type_local
    limit first.2 = first.
Proof.
  intros params key Hredis Hmiss Hrun Hrec first. unfold first.
  rewrite !fetch_dvf_shape.
  eapply cached_fetch_served; eassumption.
Qed.

(** X16: a fetch touches no cache entry but the one under its own key,
    and never the session; in particular a transaction fetch leaves every
    diagnostic entry alone, and conversely. *)
Theorem fetch_touches_own_entry_only http_get
    code_postal code_commune date_min date_max type_local
    classe type_batiment limit w k :
  let after_dvf := (fetch_dvf http_get code_postal code_commune date_min
                      date_max type_local limit w).2 in
  let after_dpe := (fetch_dpe http_get code_postal classe type_batiment
                      date_min limit w).2 in
  session after_dvf = session w ∧ session after_dpe = session w
  ∧ (k ≠ dvf_key code_postal code_commune date_min date_max type_local limit →
     cached after_dvf k = cached w k)
  ∧ (k ≠ dpe_key code_postal classe type_batiment date_min limit →
     cached after_dpe k = cached w k).
Proof.
  cbv zeta. rewrite fetch_dvf_shape, fetch_dpe_shape.
  repeat split; try (intros Hk); try apply cached_fetch_frame; assumption.
Qed.

Lemma slice_length {A} (limit : Z) (l : list A) :
  0 ≤ limit → Z.of_nat (length (py_slice_to limit l)) ≤ limit.
Proof.
  intros Hlimit. unfold py_slice_to.
  destruct (Z.leb_spec 0 limit); [|lia].
  rewrite length_take. lia.
Qed.

Lemma parse_dvf_records_length records : ∀ transactions,
  parse_dvf_records fromisoformat float_of_str validate_str validate_float
    validate_int gdpr_config records = Ok transactions →
  (length transactions ≤ length records)%nat.
Proof.
  induction records as [|record rest IH]; intros transactions; simpl.
  - intros [= <-]. reflexivity.
  - destruct record; try discriminate.
    destruct (_anonymize_address gdpr_config _); [|discriminate].
    destruct (parse_dvf_records _ _ _ _ _ _ rest) as [parsed|]; [|discriminate].
    specialize (IH parsed eq_refl).
    destruct (Fetcher.parse_dvf _ _ _ _ _ _); intros [= <-]; simpl; lia.
Qed.

Lemma omap_length {A B} (f : A → option B) (l : list A) :
  (length (omap f l) ≤ length l)%nat.
Proof.
  induction l as [|x l IH]; simpl; [lia|].
  unfold omap in IH. destruct (f x); simpl; lia.
Qed.

Lemma fetch_dvf_length http_get code_postal code_commune date_min date_max
    type_local limit w transactions :
  0 ≤ limit →
  (fetch_dvf http_get code_postal code_commune date_min date_max type_local
     limit w).1 = Ok transactions →
  Z.of_nat (length transactions) ≤ limit.
Proof.
  intros Hlimit. rewrite fetch_dvf_shape.
  apply (cached_fetch_result _ _ _ _ _ _ _
           (fun l => Z.of_nat (length l) ≤ limit)); [simpl; lia|].
  intros records l. cbv beta. unfold dvf_of_records.
  destruct (as_sequence records) as [raw|]; [|discriminate].
  intros Hl%parse_dvf_records_length.
  pose proof (slice_length limit raw Hlimit). lia.
Qed.

Lemma fetch_dpe_length http_get code_postal classe type_batiment date_min
    limit w diagnostics :
  0 ≤ limit →
  (fetch_dpe http_get code_postal classe type_batiment date_min limit w).1
  = Ok diagnostics →
  Z.of_nat (length diagnostics) ≤ limit.
Proof.
  intros Hlimit. rewrite fetch_dpe_shape.
  apply (cached_fetch_result _ _ _ _ _ _ _
           (fun l => Z.of_nat (length l) ≤ limit)); [simpl; lia|].
  intros results l. cbv beta. unfold dpe_of_results.
  destruct (as_sequence results) as [raw|]; [|discriminate].
  intros [= <-].
  pose proof (omap_length
                (Fetcher.parse_dpe fromisoformat float_of_str validate_str
                   validate_float) (py_slice_to limit raw)).
  pose proof (slice_length limit raw Hlimit). lia.
Qed.

(** X17: with a non-negative [limit], a fetch never returns more than
    [limit] entities, however many the upstream or the cache holds. *)
Theorem fetch_respects_limit http_get code_postal code_commune date_min
    date_max type_local classe type_batiment limit w :
  0 ≤ limit →
  (∀ transactions,
     (fetch_dvf http_get code_postal code_commune date_min date_max
        type_local limit w).1 = Ok transactions →
     Z.of_nat (length transactions) ≤ limit)
  ∧ (∀ diagnostics,
       (fetch_dpe http_get code_postal classe type_batiment date_min limit
          w).1 = Ok diagnostics →
       Z.of_nat (length diagnostics) ≤ limit).
Proof.
  intros Hlimit. split.
  - intros transactions. apply fetch_dvf_length. exact Hlimit.
  - intros diagnostics. apply fetch_dpe_length. exact Hlimit.
Qed.

Lemma parse_dvf_records_returns records :
  include_exact_addresses gdpr_config = false →
  returns (parse_dvf_records fromisoformat float_of_str validate_str
             validate_float validate_int gdpr_config records)
  ↔ Forall well_formed_record records.
Proof.
  intros Hcfg. induction records as [|record rest IH]; simpl.
  - split; [constructor|exact (fun _ => I)].
  - rewrite Forall_cons, <- IH.
    destruct record as [| | | | | |r]; simpl;
      try (split; [intros []|intros [[] _]]).
    unfold _anonymize_address. rewrite Hcfg. simpl.
    destruct (r !! "fields") as [[| | | | | |f]|]; simpl;
      try (split; [intros []|intros [[] _]]);
      destruct (parse_dvf_records _ _ _ _ _ _ rest); simpl;
      (split; [intros H; split; [exact I|exact H]|intros [_ H]; exact H]).
Qed.

(** X18: with street addresses withheld (the default), the loop of the
    transaction fetch returns exactly when each of the first [limit]
    records is an object whose [fields], if present, are an object: one
    malformed record makes the whole fetch raise.  The loop of the
    diagnostic fetch returns on every list: it skips what it cannot
    parse. *)
Theorem malformed_record_aborts_transactions records limit :
  include_exact_addresses gdpr_config = false →
  (returns (dvf_of_records fromisoformat float_of_str validate_str
              validate_float validate_int gdpr_config (JList records) limit)
   ↔ Forall well_formed_record (py_slice_to limit records))
  ∧ returns (dpe_of_results fromisoformat float_of_str validate_str
               validate_float (JList records) limit).
Proof.
  intros Hcfg. split.
  - unfold dvf_of_records. simpl.
    apply parse_dvf_records_returns. exact Hcfg.
  - exact I.
Qed.

Lemma fetch_dvf_anonymous http_get code_postal code_commune date_min
    date_max type_local limit w transactions :
  include_exact_addresses gdpr_config = false →
  (fetch_dvf http_get code_postal code_commune date_min date_max type_local
     limit w).1 = Ok transactions →
  Forall anonymous transactions.
Proof.
  intros Hcfg. rewrite fetch_dvf_shape.
  apply (cached_fetch_result _ _ _ _ _ _ _ (Forall anonymous));
    [constructor|].
  intros records l. cbv beta. intros Hl.
  exact (FetcherProperties.dvf_of_records_anonymous fromisoformat
           float_of_str validate_str validate_float validate_int gdpr_config
           records limit l Hcfg Hl).
Qed.

Lemma parse_dvf_coordinates f t :
  Fetcher.parse_dvf fromisoformat float_of_str validate_str validate_float
    validate_int (JDict f) = Some t →
  f !! "longitude" = None → f !! "latitude" = None →
  without_coordinates t.
Proof.
  unfold Fetcher.parse_dvf. intros H Hlon Hlat.
  rewrite Hlon, Hlat in H. simpl in H.
  repeat match type of H with
         | (?x ≫= _) = Some _ => destruct x; simpl in H; [|discriminate]
         end.
  injection H as <-. split; reflexivity.
Qed.

Lemma parse_dvf_records_coordinates records :
  include_exact_addresses gdpr_config = false →
  anonymization_level gdpr_config = "commune" →
  ∀ transactions,
    parse_dvf_records fromisoformat float_of_str validate_str validate_float
      validate_int gdpr_config records = Ok transactions →
    Forall without_coordinates transactions.
Proof.
  intros Hcfg Hlevel.
  induction records as [|record rest IH]; simpl; intros ts Hts.
  - injection Hts as <-. constructor.
  - destruct record as [| | | | | |r]; try discriminate.
    unfold _anonymize_address in Hts. rewrite Hcfg, Hlevel in Hts.
    simpl in Hts.
    destruct (default (JDict ∅) (r !! "fields")) as [| | | | | |f] eqn:Hf;
      try discriminate.
    destruct (parse_dvf_records _ _ _ _ _ _ rest) as [ts'|e]; [|discriminate].
    specialize (IH ts' eq_refl).
    match type of Hts with
    | Ok (match ?p with _ => _ end) = _ => destruct p as [t|] eqn:Ht
    end; injection Hts as <-; [|assumption].
    constructor; [|assumption].
    apply (parse_dvf_coordinates _ _ Ht); FetcherProperties.del; reflexivity.
Qed.

(** X19: with street addresses withheld and the anonymization level set
    to [commune], no transaction a fetch returns carries coordinates,
    whether the records came from upstream or from the cache. *)
Theorem commune_level_hides_coordinates http_get code_postal code_commune
    date_min date_max type_local limit w transactions :
  include_exact_addresses gdpr_config = false →
  anonymization_level gdpr_config = "commune" →
  (fetch_dvf http_get code_postal code_commune date_min date_max type_local
     limit w).1 = Ok transactions →
  Forall without_coordinates transactions.
Proof.
  intros Hcfg Hlevel. rewrite fetch_dvf_shape.
  apply (cached_fetch_result _ _ _ _ _ _ _ (Forall without_coordinates));
    [constructor|].
  intros records l. cbv beta. unfold dvf_of_records.
  destruct (as_sequence records) as [raw|]; [|discriminate].
  apply parse_dvf_records_coordinates; assumption.
Qed.

(** The call returns the join of what the two fetches return. *)
Lemma reconcile_result http_get code_postal date_range_days w :
  let date_min := Some (minus_days now date_range_days) in
  let dvf := fetch_dvf http_get (Some code_postal) None date_min None None
               200 w in
  let dpe := fetch_dpe http_get (Some code_postal) None None date_min 200
               dvf.2 in
  cross_reference_dvf_dpe urlencode md5_hexdigest strftime_ymd fromisoformat
    float_of_str validate_str validate_float validate_int minus_days http_get
    gdpr_config now code_postal date_range_days w
  = match dvf.1 with
    | Ok transactions =>
        match dpe.1 with
        | Ok diagnostics => (Ok (enrich transactions diagnostics), dpe.2)
        | Raise e => (Raise e, dpe.2)
        end
    | Raise e => (Raise e, dvf.2)
    end.
Proof.
  cbv zeta. unfold cross_reference_dvf_dpe.
  rewrite FetcherProperties.bind_run.
  destruct (fetch_dvf http_get (Some code_postal) None
              (Some (minus_days now date_range_days)) None None 200 w)
    as [[transactions|e] w1]; [|reflexivity].
  rewrite FetcherProperties.bind_run. simpl.
  destruct (fetch_dpe http_get (Some code_postal) None None
              (Some (minus_days now date_range_days)) 200 w1)
    as [[diagnostics|e] w2]; reflexivity.
Qed.

Lemma reconcile_entries http_get code_postal date_range_days w enriched :
  (reconcile http_get code_postal date_range_days w).1 = Ok enriched →
  ∃ transactions diagnostics,
    (fetch_dvf http_get (Some code_postal) None
       (Some (minus_days now date_range_days)) None None 200 w).1
    = Ok transactions
    ∧ enriched = enrich transactions diagnostics.
Proof.
  rewrite reconcile_result. cbv zeta.
  destruct (fetch_dvf http_get (Some code_postal) None
              (Some (minus_days now date_range_days)) None None 200 w).1
    as [transactions|e]; [|discriminate].
  destruct (fetch_dpe http_get (Some code_postal) None None
              (Some (minus_days now date_range_days)) 200 _).1
    as [diagnostics|e]; [|discriminate].
  intros [= <-]. eauto.
Qed.


End Fetchers.

Lemma fetch_without_session_witness :
  Sample.fetch_dvf Sample.down default_gdpr_config (Some "75015") None None
    None None 100 Fixtures.offline
  = (Raise RuntimeError, Fixtures.offline).
Proof.
  apply (fetch_without_session Sample.urlencode Sample.md5_hexdigest
           Sample.strftime_ymd Sample.fromisoformat Sample.float_of_str
           Sample.validate_str Sample.validate_float Sample.validate_int
           default_gdpr_config Sample.down (Some "75015") None None None None
           100 Fixtures.offline).
  - reflexivity.
  - reflexivity.
Defined.

Lemma second_fetch_served_from_cache_witness :
  Sample.fetch_dvf Sample.down default_gdpr_config (Some "75015") None None
    None None 100 (Sample.run_fetch "12").2
  = Sample.run_fetch "12".
Proof.
  apply (second_fetch_served_from_cache Sample.urlencode Sample.md5_hexdigest
           Sample.strftime_ymd Sample.fromisoformat Sample.float_of_str
           Sample.validate_str Sample.validate_float Sample.validate_int
           default_gdpr_config (Sample.serving (Sample.one_record "12"))
           Sample.down (Some "75015") None None None None 100 Sample.fresh ∅
           (Sample.dvf_response (Sample.one_record "12"))
           Fixtures.after_one_request
           (JList (Sample.one_record "12"))).
  - reflexivity.
  - reflexivity.
  - reflexivity.
  - reflexivity.
Defined.

Lemma fetch_touches_own_entry_only_witness :
  cached (Sample.run_fetch "12").2 "ecoimmo:dpe:0" = None.
Proof.
  destruct (fetch_touches_own_entry_only Sample.urlencode Sample.md5_hexdigest
              Sample.strftime_ymd Sample.fromisoformat Sample.float_of_str
              Sample.validate_str Sample.validate_float Sample.validate_int
              default_gdpr_config (Sample.serving (Sample.one_record "12"))
              (Some "75015") None None None None None None 100 Sample.fresh
              "ecoimmo:dpe:0")
    as (_ & _ & Hdvf & _).
  unfold Sample.run_fetch, Sample.fetch_dvf. rewrite Hdvf.
  - reflexivity.
  - unfold _generate_cache_key. intros H. discriminate H.
Defined.

Lemma fetch_respects_limit_witness :
  Z.of_nat
    (length
       (Sample.returned
          (Sample.fetch_dvf (Sample.serving Sample.three_records)
             default_gdpr_config (Some "75015") None None None None 2
             Sample.fresh).1)) ≤ 2.
Proof.
  apply (fetch_respects_limit Sample.urlencode Sample.md5_hexdigest
           Sample.strftime_ymd Sample.fromisoformat Sample.float_of_str
           Sample.validate_str Sample.validate_float Sample.validate_int
           default_gdpr_config (Sample.serving Sample.three_records)
           (Some "75015") None None None None None None 2 Sample.fresh).
  - lia.
  - vm_compute. reflexivity.
Defined.

Lemma malformed_record_aborts_transactions_witness :
  (returns (dvf_of_records Sample.fromisoformat Sample.float_of_str
              Sample.validate_str Sample.validate_float Sample.validate_int
              default_gdpr_config
              (JList (Sample.one_record "12" ++ [JInt 7])) 100)
   ↔ Forall well_formed_record
       (py_slice_to 100 (Sample.one_record "12" ++ [JInt 7])))
  ∧ returns (dpe_of_results Sample.fromisoformat Sample.float_of_str
               Sample.validate_str Sample.validate_float
               (JList (Sample.one_record "12" ++ [JInt 7])) 100).
Proof.
  apply (malformed_record_aborts_transactions Sample.fromisoformat
           Sample.float_of_str Sample.validate_str Sample.validate_float
           Sample.validate_int default_gdpr_config
           (Sample.one_record "12" ++ [JInt 7]) 100).
  reflexivity.
Defined.

Lemma commune_level_hides_coordinates_witness :
  Forall without_coordinates
    (Sample.returned
       (Sample.fetch_dvf (Sample.serving (Sample.one_record "12"))
          Fixtures.commune_level (Some "75015") None None None None 100
          Sample.fresh).1).
Proof.
  apply (commune_level_hides_coordinates Sample.urlencode
           Sample.md5_hexdigest Sample.strftime_ymd Sample.fromisoformat
           Sample.float_of_str Sample.validate_str Sample.validate_float
           Sample.validate_int Fixtures.commune_level
           (Sample.serving (Sample.one_record "12"))
           (Some "75015") None None None None 100 Sample.fresh).
  - reflexivity.
  - reflexivity.
  - vm_compute. reflexivity.
Defined.


End FetcherExtras.

(** * Further properties of the join *)

Module JoinExtras.

Import Fetcher FetcherNotions.

Lemma later_trans a b c :
  later_dpe a b = true → later_dpe b c = true → later_dpe a c = true.
Proof. intros H1 H2. JoinProperties.dt_cases. Qed.

Lemma not_later_then_later a b c :
  later_dpe b a = false → later_dpe b c = true → later_dpe a c = true.
Proof. intros H1 H2. JoinProperties.dt_cases. Qed.

(** While scanning, the current best splits what was seen: strictly older
    diagnostics before it, none more recent after it. *)
Lemma max_from_first_spec others : ∀ best before after,
  Forall (fun d => later_dpe d best = true) before →
  Forall (fun d => later_dpe best d = false) after →
  ∃ before' after',
    before ++ best :: after ++ others
    = before' ++ max_from later_dpe best others :: after'
    ∧ Forall (fun d => later_dpe d (max_from later_dpe best others) = true)
        before'
    ∧ Forall (fun d => later_dpe (max_from later_dpe best others) d = false)
        after'.
Proof.
  induction others as [|x others IH]; intros best before after Hb Ha; simpl.
  - exists before, after. rewrite app_nil_r. auto.
  - destruct (later_dpe best x) eqn:Hlt.
    + destruct (IH x (before ++ best :: after) []) as (b' & a' & Heq & H1 & H2).
      * apply Forall_app. split.
        -- eapply Forall_impl; [exact Hb|]. intros d Hd.
           exact (later_trans _ _ _ Hd Hlt).
        -- constructor; [exact Hlt|].
           eapply Forall_impl; [exact Ha|]. intros d Hd.
           exact (not_later_then_later _ _ _ Hd Hlt).
      * constructor.
      * exists b', a'. split; [|auto].
        rewrite <- Heq. simpl. rewrite <- !app_assoc. reflexivity.
    + destruct (IH best before (after ++ [x])) as (b' & a' & Heq & H1 & H2).
      * exact Hb.
      * apply Forall_app. split; [exact Ha|]. constructor; [exact Hlt|constructor].
      * exists b', a'. split; [|auto].
        rewrite <- Heq. rewrite <- !app_assoc. reflexivity.
Qed.

Lemma candidates_lookup diagnostics txn surface :
  default [] (build_dpe_map diagnostics
                !! surface_key (code_postal txn) surface)
  = candidates txn surface diagnostics.
Proof.
  unfold build_dpe_map, candidates.
  rewrite JoinProperties.dpe_map_fold, lookup_empty. reflexivity.
Qed.

Lemma enrich_cons txn transactions diagnostics :
  enrich (txn :: transactions) diagnostics
  = enrich_one (build_dpe_map diagnostics) txn
    ++ enrich transactions diagnostics.
Proof. reflexivity. Qed.

Lemma enrich_length transactions diagnostics :
  (length (enrich transactions diagnostics) ≤ length transactions)%nat.
Proof.
  induction transactions as [|txn transactions IH]; [reflexivity|].
  rewrite enrich_cons, length_app. simpl.
  pose proof (JoinProperties.enrich_one_spec diagnostics txn) as Hspec.
  destruct (surface_reelle_bati txn) as [surface|].
  - destruct (Q_truthy surface).
    + destruct Hspec as (e & -> & _). simpl. lia.
    + rewrite Hspec. simpl. lia.
  - rewrite Hspec. simpl. lia.
Qed.


(** X22: the diagnostic attached to an entry is the first, in fetch order,
    of the most recent candidates: every candidate fetched before it is
    strictly older, none fetched after it is more recent. *)
Theorem equally_recent_first_wins transactions diagnostics e d :
  e ∈ enrich transactions diagnostics → dpe e = Some d →
  ∃ surface before after,
    surface_reelle_bati (transaction e) = Some surface
    ∧ candidates (transaction e) surface diagnostics = before ++ d :: after
    ∧ Forall (fun d' => later_dpe d' d = true) before
    ∧ Forall (fun d' => later_dpe d d' = false) after.
Proof.
  unfold enrich. intros (txn & He & _)%list_elem_of_bind Hd.
  unfold enrich_one in He.
  destruct (surface_reelle_bati txn) as [surface|] eqn:Hs;
    [|inversion He].
  destruct (Q_truthy surface); simpl in He; [|inversion He].
  rewrite candidates_lookup in He.
  destruct (candidates txn surface diagnostics) as [|first others] eqn:Hc.
  - apply list_elem_of_singleton in He as ->. discriminate Hd.
  - apply list_elem_of_singleton in He as ->. simpl in Hd.
    injection Hd as <-. simpl.
    destruct (max_from_first_spec others first [] []) as (b & a & Heq & H1 & H2);
      [constructor|constructor|].
    exists surface, b, a. rewrite Hs, Hc. auto.
Qed.

Lemma equally_recent_first_wins_witness :
  ∃ surface before after,
    surface_reelle_bati (Sample.txn "2025-1" (Some 64%Q)) = Some surface
    ∧ candidates (Sample.txn "2025-1" (Some 64%Q)) surface
        [Sample.diag "a" 68 (datetime_ymd 2025 4 1);
         Sample.diag "b" 68 (datetime_ymd 2025 4 1)]
      = before ++ Sample.diag "a" 68 (datetime_ymd 2025 4 1) :: after
    ∧ Forall (fun d' => later_dpe d'
                          (Sample.diag "a" 68 (datetime_ymd 2025 4 1)) = true)
        before
    ∧ Forall (fun d' => later_dpe
                          (Sample.diag "a" 68 (datetime_ymd 2025 4 1)) d'
                        = false) after.
Proof.
  apply (equally_recent_first_wins
           [Sample.txn "2025-1" (Some 64%Q)]
           [Sample.diag "a" 68 (datetime_ymd 2025 4 1);
            Sample.diag "b" 68 (datetime_ymd 2025 4 1)]
           {| transaction := Sample.txn "2025-1" (Some 64%Q);
              dpe := Some (Sample.diag "a" 68 (datetime_ymd 2025 4 1));
              confidence := "medium" |}
           (Sample.diag "a" 68 (datetime_ymd 2025 4 1))).
  - vm_compute. left.
  - reflexivity.
Defined.

End JoinExtras.

(** * Properties of the handlers *)

Module EndpointExtras.

Import Fetcher FetcherNotions Endpoints.

(** ** The map of passoires thermiques *)

Lemma count_fold c diagnostics : ∀ counts : gmap string Z,
  fold_left count_class diagnostics counts !! c
  = (fun n => n + Z.of_nat (length (of_class c diagnostics)))
    <$> counts !! c.
Proof.
  induction diagnostics as [|d ds IH]; intros counts.
  - simpl. destruct (counts !! c); simpl; [f_equal; lia|reflexivity].
  - cbn [fold_left]. rewrite IH. unfold count_class, of_class. simpl.
    destruct (String.eqb_spec (classe_consommation_energie d) c) as [->|Hne].
    + destruct (counts !! c) as [n|] eqn:Hc.
      * rewrite lookup_insert_eq. simpl. f_equal. lia.
      * rewrite Hc. reflexivity.
    + destruct (counts !! classe_consommation_energie d) as [n|];
        [rewrite lookup_insert_ne by assumption|]; reflexivity.
Qed.

Lemma counts_of_class c diagnostics :
  c ∈ classes →
  fold_left count_class diagnostics initial_counts !! c
  = Some (Z.of_nat (length (of_class c diagnostics))).
Proof.
  intros Hc. rewrite count_fold.
  unfold classes in Hc.
  repeat (apply elem_of_cons in Hc as [->|Hc]; [reflexivity|]).
  inversion Hc.
Qed.

Lemma counts_outside c diagnostics :
  c ∉ classes →
  fold_left count_class diagnostics initial_counts !! c = None.
Proof.
  intros Hc. rewrite count_fold.
  assert (initial_counts !! c = None) as ->; [|reflexivity].
  unfold initial_counts. apply not_elem_of_list_to_map_1.
  exact Hc.
Qed.

Lemma of_class_length c diagnostics :
  (length (of_class c diagnostics) ≤ length diagnostics)%nat.
Proof. apply List.filter_length_le. Qed.

(** The diagnostics of classes F and G are disjoint parts of the list. *)
Lemma passoires_length diagnostics :
  (length (of_class "F" diagnostics) + length (of_class "G" diagnostics)
   ≤ length diagnostics)%nat.
Proof.
  unfold of_class. induction diagnostics as [|d ds IH]; simpl; [lia|].
  destruct (String.eqb_spec (classe_consommation_energie d) "F") as [->|];
    simpl.
  - lia.
  - destruct (String.eqb (classe_consommation_energie d) "G"); simpl; lia.
Qed.

Lemma gt_ratio (a b n m : Z) :
  0 < b → (0 < m)%Z →
  gt (inject_Z a / inject_Z b) (n # Z.to_pos m) = true ↔ n * b < m * a.
Proof.
  intros Hb Hm. unfold gt. rewrite negb_true_iff.
  destruct b as [|p|p]; try lia. destruct m as [|q|q]; try lia.
  unfold Qle_bool, Qdiv, Qmult, Qinv, inject_Z. simpl.
  rewrite Z.leb_gt. lia.
Qed.

Section MapHandler.

Variable urlencode : list (string * param) → string.
Variable md5_hexdigest : string → string.
Variable strftime_ymd : datetime → string.
Variable fromisoformat : string → option datetime.
Variable float_of_str : string → option Q.
Variable validate_str : json → option string.
Variable validate_float : json → option Q.
Variable http_get : string → list (string * param) → nat → attempt.

#[local] Abbreviation fetch_dpe :=
  (fetch_dpe_diagnostics urlencode md5_hexdigest strftime_ymd fromisoformat
     float_of_str validate_str validate_float http_get).
#[local] Abbreviation passoire_map :=
  (passoire_thermique_map urlencode md5_hexdigest strftime_ymd fromisoformat
     float_of_str validate_str validate_float http_get).

Lemma map_of_no_diagnostics code_postal :
  map_of_diagnostics code_postal [] = ZeroDivisionError.
Proof. reflexivity. Qed.

Lemma map_of_some_diagnostics code_postal d ds :
  ∃ body, map_of_diagnostics code_postal (d :: ds) = Answer body
          ∧ total_properties body = Z.of_nat (length (d :: ds))
          ∧ classification_distribution body
            = fold_left count_class (d :: ds) initial_counts
          ∧ passoire_thermique_count body
            = Z.of_nat (length (of_class "F" (d :: ds))
                        + length (of_class "G" (d :: ds)))
          ∧ risk_level body
            = (if gt (inject_Z (passoire_thermique_count body)
                      / inject_Z (total_properties body)) (3 # 10)
               then "high"
               else if gt (inject_Z (passoire_thermique_count body)
                           / inject_Z (total_properties body)) (15 # 100)
               then "medium" else "low").
Proof.
  unfold map_of_diagnostics.
  set (diagnostics := d :: ds).
  rewrite !counts_of_class by (unfold classes; set_solver).
  cbn [default].
  assert (0 < Z.of_nat (length diagnostics)) as Hpos by (simpl; lia).
  unfold true_div.
  destruct (Z.ltb_spec 0 (Z.of_nat (length diagnostics))) as [_|]; [|lia].
  destruct (Z.eqb_spec (Z.of_nat (length diagnostics)) 0) as [|_]; [lia|].
  simpl. eexists. split; [reflexivity|]. simpl.
  repeat split; try reflexivity. lia.
Qed.

(** X23: the map handler ends with [ZeroDivisionError] exactly when the
    fetch returns no diagnostic (the postal code has none, the upstream
    is down, or the body has no envelope); an exception of the fetch
    leaves the handler as it is; in every other case the handler
    answers. *)
Theorem map_divides_by_zero_without_diagnostics code_postal w :
  let fetched := (fetch_dpe (Some code_postal) None None None 500 w).1 in
  ((passoire_map code_postal w).1 = ZeroDivisionError ↔ fetched = Ok [])
  ∧ (∀ e, (passoire_map code_postal w).1 = Uncaught e ↔ fetched = Raise e)
  ∧ ((∃ body, (passoire_map code_postal w).1 = Answer body)
     ↔ ∃ d ds, fetched = Ok (d :: ds)).
Proof.
  cbv zeta. unfold passoire_thermique_map.
  destruct (fetch_dpe (Some code_postal) None None None 500 w)
    as [[[|d ds]|e] w']; cbn [fst].
  - rewrite map_of_no_diagnostics.
    split; [split; reflexivity|]. split.
    + intros e. split; discriminate.
    + split; [intros [body [=]]|intros (d & ds & [=])].
  - destruct (map_of_some_diagnostics code_postal d ds) as (body & -> & _).
    split; [split; discriminate|]. split.
    + intros e. split; discriminate.
    + split; eauto.
  - split; [split; discriminate|]. split.
    + intros e'. split; intros [= ->]; reflexivity.
    + split; [intros [body [=]]|intros (d & ds & [=])].
Qed.

(** X24: in an answer of the map handler, each class A to G is mapped to
    the number of fetched diagnostics of that class and nothing else is
    counted; the number of passoires is that of the classes F and G and
    lies between 0 and the total, which is positive; the risk level is
    high when more than 30 % of the diagnostics are passoires, medium
    when more than 15 %, low otherwise. *)
Theorem map_counts code_postal w body :
  (passoire_map code_postal w).1 = Answer body →
  ∃ diagnostics,
    (fetch_dpe (Some code_postal) None None None 500 w).1 = Ok diagnostics
    ∧ total_properties body = Z.of_nat (length diagnostics)
    ∧ (∀ c, classification_distribution body !! c
            = if bool_decide (c ∈ classes)
              then Some (Z.of_nat (length (of_class c diagnostics)))
              else None)
    ∧ passoire_thermique_count body
      = Z.of_nat (length (of_class "F" diagnostics))
        + Z.of_nat (length (of_class "G" diagnostics))
    ∧ 0 ≤ passoire_thermique_count body ≤ total_properties body
    ∧ 0 < total_properties body ≤ 500
    ∧ (risk_level body = "high"
       ↔ 3 * total_properties body < 10 * passoire_thermique_count body)
    ∧ (risk_level body = "low"
       ↔ 100 * passoire_thermique_count body ≤ 15 * total_properties body).
Proof.
  unfold passoire_thermique_map.
  destruct (fetch_dpe (Some code_postal) None None None 500 w)
    as [[[|d ds]|e] w'] eqn:Hfetch; cbn [fst]; try discriminate.
  destruct (map_of_some_diagnostics code_postal d ds)
    as (body' & -> & Htotal & Hdist & Hcount & Hrisk).
  intros [= <-]. exists (d :: ds). split; [reflexivity|].
  pose proof (passoires_length (d :: ds)) as Hle.
  assert (0 < total_properties body') as Hpos by (rewrite Htotal; simpl; lia).
  assert (total_properties body' ≤ 500) as Hmax.
  { rewrite Htotal.
    apply (FetcherExtras.fetch_dpe_length urlencode md5_hexdigest strftime_ymd
             fromisoformat float_of_str validate_str validate_float http_get
             (Some code_postal) None None None 500 w); [lia|].
    rewrite Hfetch. reflexivity. }
  split; [exact Htotal|]. split.
  { intros c. rewrite Hdist. case_bool_decide as Hc.
    - apply counts_of_class. exact Hc.
    - apply counts_outside. exact Hc. }
  split; [rewrite Hcount; lia|].
  split; [rewrite Hcount, Htotal; lia|].
  split; [lia|].
  rewrite Hrisk.
  pose proof (gt_ratio (passoire_thermique_count body')
                (total_properties body') 3 10 Hpos eq_refl) as Hhigh.
  pose proof (gt_ratio (passoire_thermique_count body')
                (total_properties body') 15 100 Hpos eq_refl) as Hmed.
  change (3 # Z.to_pos 10) with (3 # 10) in Hhigh.
  change (15 # Z.to_pos 100) with (15 # 100) in Hmed.
  destruct (gt _ (3 # 10)).
  - split; split; try reflexivity; try discriminate.
    + intros _. apply Hhigh. reflexivity.
    + intros H. assert (true = true) as Ht%Hhigh by reflexivity. lia.
  - destruct (gt _ (15 # 100)).
    + split; split; try discriminate.
      * intros H%Hhigh. discriminate H.
      * intros H. assert (true = true) as Ht%Hmed by reflexivity. lia.
    + split; split; try discriminate; try reflexivity.
      * intros H%Hhigh. discriminate H.
      * intros _.
        destruct (Z.le_gt_cases
                    (100 * passoire_thermique_count body')
                    (15 * total_properties body')) as [|Hgt]; [assumption|].
        assert (15 * total_properties body'
                < 100 * passoire_thermique_count body') as H%Hmed by lia.
        discriminate H.
Qed.

End MapHandler.

Lemma map_divides_by_zero_without_diagnostics_witness :
  Scenarios.map_run_down.1 = ZeroDivisionError.
Proof.
  apply (map_divides_by_zero_without_diagnostics Sample.urlencode
           Sample.md5_hexdigest Sample.strftime_ymd Sample.fromisoformat
           Sample.float_of_str Sample.validate_str Sample.validate_float
           Sample.down "75015" Sample.fresh).
  vm_compute. reflexivity.
Defined.

Lemma map_counts_witness :
  risk_level Scenarios.map_body = "low"
  ↔ 100 * passoire_thermique_count Scenarios.map_body
    ≤ 15 * total_properties Scenarios.map_body.
Proof.
  destruct (map_counts Sample.urlencode Sample.md5_hexdigest
              Sample.strftime_ymd Sample.fromisoformat Sample.float_of_str
              Sample.validate_str Sample.validate_float Scenarios.upstream
              "75015" Sample.fresh Scenarios.map_body)
    as (diagnostics & _ & _ & _ & _ & _ & _ & _ & Hlow).
  - vm_compute. reflexivity.
  - exact Hlow.
Defined.

(** ** The search *)

Lemma filter_split_length {A} (f : A → bool) (l : list A) :
  (length (List.filter f l) + length (List.filter (fun x => negb (f x)) l)
   = length l)%nat.
Proof.
  induction l as [|x l IH]; simpl; [reflexivity|].
  destruct (f x); simpl; lia.
Qed.

Lemma slice_length_min {A} (limit : Z) (l : list A) :
  0 ≤ limit →
  Z.of_nat (length (py_slice_to limit l)) = Z.min limit (Z.of_nat (length l)).
Proof.
  intros Hlimit. unfold py_slice_to.
  destruct (Z.leb_spec 0 limit); [|lia].
  rewrite length_take. lia.
Qed.

Lemma slice_subseteq {A} (limit : Z) (l : list A) x :
  x ∈ py_slice_to limit l → x ∈ l.
Proof.
  unfold py_slice_to. destruct (Z.leb 0 limit);
    intros (i & Hi & _)%elem_of_take; eapply list_elem_of_lookup_2; exact Hi.
Qed.

Section SearchHandler.

Variable urlencode : list (string * param) → string.
Variable md5_hexdigest : string → string.
Variable strftime_ymd : datetime → string.
Variable fromisoformat : string → option datetime.
Variable float_of_str : string → option Q.
Variable validate_str : json → option string.
Variable validate_float : json → option Q.
Variable validate_int : json → option Z.
Variable minus_days : datetime → Z → datetime.
Variable http_get : string → list (string * param) → nat → attempt.
Variable gdpr_config : GDPRConfig.
Variable now : datetime.

#[local] Abbreviation search :=
  (search_properties urlencode md5_hexdigest strftime_ymd fromisoformat
     float_of_str validate_str validate_float validate_int minus_days
     http_get gdpr_config now).
#[local] Abbreviation reconcile :=
  (cross_reference_dvf_dpe urlencode md5_hexdigest strftime_ymd fromisoformat
     float_of_str validate_str validate_float validate_int minus_days
     http_get gdpr_config now).

(** An answer is built from entries of the reconciliation of the last
    365 days, and only for a [limit] from 1 to 500. *)
Lemma search_answer code_postal type_local limit w body :
  (search code_postal type_local limit w).1 = Answer body →
  1 ≤ limit ≤ 500
  ∧ ∃ transactions diagnostics,
      (fetch_dvf_transactions urlencode md5_hexdigest strftime_ymd
         fromisoformat float_of_str validate_str validate_float validate_int
         http_get gdpr_config (Some code_postal) None
         (Some (minus_days now 365)) None None 200 w).1 = Ok transactions
      ∧ body = search_of_entries code_postal type_local limit
                 (enrich transactions diagnostics).
Proof.
  unfold search_properties.
  destruct (Z.leb_spec 1 limit); simpl; [|discriminate].
  destruct (Z.leb_spec limit 500); simpl; [|discriminate].
  destruct (reconcile code_postal 365 w) as [[enriched|e] w'] eqn:Hrun;
    simpl; [|discriminate].
  intros [= <-]. split; [lia|].
  destruct (FetcherExtras.reconcile_entries urlencode md5_hexdigest
              strftime_ymd fromisoformat float_of_str validate_str
              validate_float validate_int minus_days gdpr_config now http_get
              code_postal 365 w enriched) as (ts & ds & Hts & ->).
  { rewrite Hrun. reflexivity. }
  eauto.
Qed.

(** X25: in an answer of the search, the entries with and without a
    diagnostic add up to the total; the total never exceeds 200, the
    number of transactions the reconciliation fetches, so a [limit] above
    200 is never reached; the page holds the first [limit] entries. *)
Theorem search_counts code_postal type_local limit w body :
  (search_properties urlencode md5_hexdigest strftime_ymd fromisoformat
     float_of_str validate_str validate_float validate_int minus_days
     http_get gdpr_config now code_postal type_local limit w).1 = Answer body →
  with_dpe body + without_dpe body = total body
  ∧ 0 ≤ total body ≤ 200
  ∧ Z.of_nat (length (properties body)) = Z.min limit (total body).
Proof.
  intros (Hlimit & ts & ds & Hts & ->)%search_answer.
  unfold search_of_entries. cbn [with_dpe without_dpe total properties].
  set (entries := match given type_local with
                  | Some wanted => List.filter _ (enrich ts ds)
                  | None => enrich ts ds
                  end).
  assert (length entries ≤ length (enrich ts ds))%nat as Hentries.
  { unfold entries. destruct (given type_local); [|lia].
    apply List.filter_length_le. }
  pose proof (JoinExtras.enrich_length ts ds) as Henrich.
  pose proof (FetcherExtras.fetch_dvf_length urlencode md5_hexdigest
                strftime_ymd fromisoformat float_of_str validate_str
                validate_float validate_int gdpr_config http_get
                (Some code_postal) None (Some (minus_days now 365)) None
                None 200 w ts ltac:(lia) Hts) as Hfetch.
  pose proof (filter_split_length dpe_truthy entries) as Hsplit.
  split; [lia|]. split; [lia|].
  apply slice_length_min. lia.
Qed.

(** X26: with street addresses withheld, as the application configures
    its fetcher, no entry of an answer of the search carries a street
    number or a street name; every entry is for a transaction with a
    non-zero built surface and, when a type is asked for, of that
    type. *)
Theorem search_results_private code_postal type_local limit w body :
  include_exact_addresses gdpr_config = false →
  (search_properties urlencode md5_hexdigest strftime_ymd fromisoformat
     float_of_str validate_str validate_float validate_int minus_days
     http_get gdpr_config now code_postal type_local limit w).1 = Answer body →
  Forall (fun p =>
            anonymous (transaction p)
            ∧ has_surface (transaction p) = true
            ∧ ∀ wanted, given type_local = Some wanted →
                        Fetcher.type_local (transaction p) = wanted)
         (properties body).
Proof.
  intros Hcfg (Hlimit & ts & ds & Hts & ->)%search_answer.
  pose proof (FetcherExtras.fetch_dvf_anonymous urlencode md5_hexdigest
                strftime_ymd fromisoformat float_of_str validate_str
                validate_float validate_int gdpr_config http_get
                (Some code_postal) None (Some (minus_days now 365)) None
                None 200 w ts Hcfg Hts) as Hanon.
  rewrite Forall_forall in Hanon.
  apply Forall_forall. intros p Hp.
  unfold search_of_entries in Hp. cbn [properties] in Hp.
  apply slice_subseteq in Hp.
  assert (p ∈ enrich ts ds
          ∧ ∀ wanted, given type_local = Some wanted →
                      Fetcher.type_local (transaction p) = wanted)
    as [Hin Htype].
  { destruct (given type_local) as [wanted|].
    - apply list_elem_of_In, filter_In in Hp as [Hp Heq].
      apply list_elem_of_In in Hp. split; [exact Hp|].
      intros ? [= <-]. apply String.eqb_eq. exact Heq.
    - split; [exact Hp|]. intros ? [=]. }
  apply JoinProperties.enrich_entries in Hin as (Hts' & Hsurface & _).
  split; [apply Hanon; exact Hts'|]. split; assumption.
Qed.

End SearchHandler.

Lemma search_counts_witness :
  with_dpe Scenarios.search_body + without_dpe Scenarios.search_body
  = total Scenarios.search_body
  ∧ 0 ≤ total Scenarios.search_body ≤ 200
  ∧ Z.of_nat (length (properties Scenarios.search_body))
    = Z.min 100 (total Scenarios.search_body).
Proof.
  apply (search_counts Sample.urlencode Sample.md5_hexdigest
           Sample.strftime_ymd Sample.fromisoformat Sample.float_of_str
           Sample.validate_str Sample.validate_float Sample.validate_int
           Sample.minus_days Scenarios.upstream default_gdpr_config
           Sample.now "75015" (Some "Appartement") 100 Sample.fresh
           Scenarios.search_body).
  vm_compute. reflexivity.
Defined.

Lemma search_results_private_witness :
  Forall (fun p =>
            anonymous (transaction p)
            ∧ has_surface (transaction p) = true
            ∧ ∀ wanted, given (Some "Appartement") = Some wanted →
                        Fetcher.type_local (transaction p) = wanted)
         (properties Scenarios.search_body).
Proof.
  apply (search_results_private Sample.urlencode Sample.md5_hexdigest
           Sample.strftime_ymd Sample.fromisoformat Sample.float_of_str
           Sample.validate_str Sample.validate_float Sample.validate_int
           Sample.minus_days Scenarios.upstream default_gdpr_config
           Sample.now "75015" (Some "Appartement") 100 Sample.fresh
           Scenarios.search_body).
  - reflexivity.
  - vm_compute. reflexivity.
Defined.

End EndpointExtras.

(** * Properties of the analysis handler and of the property doctor *)

Module AnalysisExtras.

Import Calculator Router Doctor.






(** ** The property doctor *)










End AnalysisExtras.
